(** * NEWSA rating studio: the rating locator, the aggregator, the time
      helpers and the header lookup of [app.py], embedded in Rocq.

    The Python functions are transcribed as Rocq functions over a small
    model of the Python values they touch:
    - a [str] is the list of its Unicode code points;
    - an [int] is a [Z], and the conversions between an int and its
      decimal text raise [ValueError] beyond the interpreter's limit of
      4300 digits;
    - a [float] is an IEEE-754 binary64 value ([spec_float]), and
      [float(text)] rounds the decimal it reads to the nearest double;
    - an exception is a value of [exn], carried by [result];
    - a pandas [DataFrame] is a shape and a cell function, and [iloc]
      raises [IndexError] outside the shape. *)

From Stdlib Require Import String Ascii.
From Stdlib Require Import ZArith List Bool Lia.
From Stdlib Require Import Floats.SpecFloat.
Import ListNotations.

Local Open Scope Z_scope.

(** ** Exceptions and results *)

Inductive exn : Type :=
| ValueError
| IndexError
| OverflowError.

Inductive result (A : Type) : Type :=
| Ok (a : A)
| Raise (e : exn).

Arguments Ok {A} a.
Arguments Raise {A} e.

Definition bind {A B : Type} (r : result A) (k : A -> result B) : result B :=
  match r with
  | Ok a => k a
  | Raise e => Raise e
  end.

Notation "x <- r ;; k" := (bind r (fun x => k))
  (at level 61, r at next level, right associativity).

(** [try: body except (...): handler], for the exceptions selected by
    [caught]. *)
Definition try_except {A : Type} (body : result A) (caught : exn -> bool)
    (handler : result A) : result A :=
  match body with
  | Ok a => Ok a
  | Raise e => if caught e then handler else Raise e
  end.

(** A [for] loop whose body may [return] ([Ok (Some r)]), fall through to
    the next iteration ([Ok None], also what [continue] does) or raise. *)
Fixpoint for_each {A R : Type} (xs : list A) (body : A -> result (option R))
    : result (option R) :=
  match xs with
  | [] => Ok None
  | x :: xs' =>
      match body x with
      | Ok None => for_each xs' body
      | Ok (Some r) => Ok (Some r)
      | Raise e => Raise e
      end
  end.

(** [range(lo, hi)], empty when [hi <= lo]. *)
Definition range (lo hi : nat) : list nat := seq lo (hi - lo).

(** [l[i]] for a list and a non-negative index. *)
Definition getitem {A : Type} (l : list A) (i : nat) : result A :=
  match nth_error l i with
  | Some a => Ok a
  | None => Raise IndexError
  end.

(** ** Python strings *)

Module Py.

(** A code point. *)
Definition char : Type := Z.

Definition pystr : Type := list char.

(** Reading a literal: the UTF-8 bytes of a Rocq string, decoded to code
    points. [pending] counts the continuation bytes still expected. *)
Fixpoint utf8 (s : string) (pending : nat) (acc : Z) : pystr :=
  match s with
  | EmptyString => []
  | String a s' =>
      let b := Z.of_N (N_of_ascii a) in
      match pending with
      | O =>
          if b <? 128 then b :: utf8 s' 0 0
          else if b <? 224 then utf8 s' 1 (b - 192)
          else if b <? 240 then utf8 s' 2 (b - 224)
          else utf8 s' 3 (b - 240)
      | S O => (acc * 64 + (b - 128)) :: utf8 s' 0 0
      | S k => utf8 s' k (acc * 64 + (b - 128))
      end
  end.

Definition u (s : string) : pystr := utf8 s 0 0.

Arguments u s%_string.

Definition in_range (c : char) (r : Z * Z) : bool :=
  (fst r <=? c) && (c <=? snd r).

(** [str.isspace] on one character (the characters [str.strip] removes). *)
Definition whitespace_ranges : list (Z * Z) :=
  [ (0x9, 0xd); (0x1c, 0x20); (0x85, 0x85); (0xa0, 0xa0); (0x1680, 0x1680);
    (0x2000, 0x200a); (0x2028, 0x2029); (0x202f, 0x202f); (0x205f, 0x205f);
    (0x3000, 0x3000) ].

Definition isspace (c : char) : bool := existsb (in_range c) whitespace_ranges.

(** The C-level [Py_ISSPACE], which the number parsers skip. *)
Definition ascii_isspace (c : char) : bool :=
  ((0x9 <=? c) && (c <=? 0xd)) || (c =? 0x20).

(** The zero of every run of ten decimal digits (general category Nd,
    Unicode 14). *)
Definition decimal_zeros : list Z :=
  [ 0x30; 0x660; 0x6f0; 0x7c0; 0x966; 0x9e6; 0xa66; 0xae6; 0xb66; 0xbe6;
    0xc66; 0xce6; 0xd66; 0xde6; 0xe50; 0xed0; 0xf20; 0x1040; 0x1090; 0x17e0;
    0x1810; 0x1946; 0x19d0; 0x1a80; 0x1a90; 0x1b50; 0x1bb0; 0x1c40; 0x1c50;
    0xa620; 0xa8d0; 0xa900; 0xa9d0; 0xa9f0; 0xaa50; 0xabf0; 0xff10; 0x104a0;
    0x10d30; 0x11066; 0x110f0; 0x11136; 0x111d0; 0x112f0; 0x11450; 0x114d0;
    0x11650; 0x116c0; 0x11730; 0x118e0; 0x11950; 0x11c50; 0x11d50; 0x11da0;
    0x16a60; 0x16ac0; 0x16b50; 0x1d7ce; 0x1d7d8; 0x1d7e2; 0x1d7ec; 0x1d7f6;
    0x1e140; 0x1e2f0; 0x1e950; 0x1fbf0 ].

(** [unicodedata.decimal]: the value of a decimal digit. *)
Definition decimal (c : char) : option Z :=
  match List.find (fun z => (z <=? c) && (c <=? z + 9)) decimal_zeros with
  | Some z => Some (c - z)
  | None => None
  end.

(** The digits that are not decimal digits (superscripts, circled digits
    and the like). *)
Definition other_digit_ranges : list (Z * Z) :=
  [ (0xb2, 0xb3); (0xb9, 0xb9); (0x1369, 0x1371); (0x19da, 0x19da);
    (0x2070, 0x2070); (0x2074, 0x2079); (0x2080, 0x2089); (0x2460, 0x2468);
    (0x2474, 0x247c); (0x2488, 0x2490); (0x24ea, 0x24ea); (0x24f5, 0x24fd);
    (0x24ff, 0x24ff); (0x2776, 0x277e); (0x2780, 0x2788); (0x278a, 0x2792);
    (0x10a40, 0x10a43); (0x10e60, 0x10e68); (0x11052, 0x1105a);
    (0x1f100, 0x1f10a) ].

(** [str.isdigit] on one character. *)
Definition isdigit (c : char) : bool :=
  match decimal c with
  | Some _ => true
  | None => existsb (in_range c) other_digit_ranges
  end.

Fixpoint dropwhile (p : char -> bool) (s : pystr) : pystr :=
  match s with
  | [] => []
  | c :: s' => if p c then dropwhile p s' else s
  end.

Definition lstrip (s : pystr) : pystr := dropwhile isspace s.
Definition rstrip (s : pystr) : pystr := rev (dropwhile isspace (rev s)).

(** [s.strip()]. *)
Definition strip (s : pystr) : pystr := rstrip (lstrip s).

Fixpoint startswith (p s : pystr) : bool :=
  match p, s with
  | [], _ => true
  | _ :: _, [] => false
  | a :: p', b :: s' => (a =? b) && startswith p' s'
  end.

(** [s.find(sub)]: the lowest index at which [sub] occurs. *)
Fixpoint find (sub s : pystr) : option nat :=
  if startswith sub s then Some O
  else match s with
       | [] => None
       | _ :: s' => option_map S (find sub s')
       end.

(** [sub in s]. *)
Definition contains (sub s : pystr) : bool :=
  match find sub s with
  | Some _ => true
  | None => false
  end.

(** The pieces of [s] between the occurrences of a non-empty [sep], found
    left to right without overlap. Every cut removes at least one
    character, so [length s] rounds are enough. *)
Fixpoint split_pieces (fuel : nat) (sep s : pystr) : list pystr :=
  match find sep s with
  | None => [s]
  | Some i =>
      firstn i s ::
      match fuel with
      | O => []
      | S fuel' => split_pieces fuel' sep (skipn (i + length sep) s)
      end
  end.

(** [s.split(sep)]; an empty separator is a [ValueError]. *)
Definition split (s sep : pystr) : result (list pystr) :=
  match sep with
  | [] => Raise ValueError
  | _ :: _ => Ok (split_pieces (length s) sep s)
  end.

(** [any(char.isdigit() for char in s)]. *)
Definition any_isdigit (s : pystr) : bool := existsb isdigit s.

(** *** Numbers read from text

    [int(text)] and [float(text)] first map the text to ASCII: characters
    below 127 stay, other whitespace becomes a blank, other decimal digits
    become their ASCII digit, anything else becomes ['?']. *)
Definition to_ascii (c : char) : char :=
  if c <? 127 then c
  else if isspace c then 32
  else match decimal c with
       | Some d => 48 + d
       | None => 63
       end.

Definition is_ascii_digit (c : char) : bool := (48 <=? c) && (c <=? 57).

(** The rest of a digit part after its first digit: digits, each
    optionally preceded by one underscore. Returns the digit values read
    and the unread text. *)
Fixpoint digitpart_rest (s : pystr) : list Z * pystr :=
  match s with
  | [] => ([], [])
  | c :: s' =>
      if is_ascii_digit c then
        let (ds, r) := digitpart_rest s' in (c - 48 :: ds, r)
      else if c =? 95 then
        match s' with
        | d :: s'' =>
            if is_ascii_digit d then
              let (ds, r) := digitpart_rest s'' in (d - 48 :: ds, r)
            else ([], s)
        | [] => ([], s)
        end
      else ([], s)
  end.

(** [digitpart ::= digit (["_"] digit)*]. *)
Definition digitpart (s : pystr) : option (list Z * pystr) :=
  match s with
  | c :: s' =>
      if is_ascii_digit c then
        let (ds, r) := digitpart_rest s' in Some (c - 48 :: ds, r)
      else None
  | [] => None
  end.

(** An optional sign: [true] for ['-']. *)
Definition sign_of (s : pystr) : bool * pystr :=
  match s with
  | c :: r => if c =? 45 then (true, r) else if c =? 43 then (false, r) else (false, s)
  | [] => (false, s)
  end.

(** The number written by a list of decimal digit values. *)
Definition horner (ds : list Z) : Z := fold_left (fun a d => 10 * a + d) ds 0.

Definition apply_sign (neg : bool) (n : Z) : Z := if neg then - n else n.

(** The interpreter's limit on the digits of an int read from or written
    as decimal text ([sys.get_int_max_str_digits()], 4300 unless the
    program changes it, which this one does not): beyond it both
    conversions raise [ValueError]. *)
Definition int_max_str_digits : Z := 4300.

(** [int(text)], base 10. The digits counted against the limit are all
    the digits of the text, leading zeros included, underscores not. *)
Definition int_of_str (s : pystr) : result Z :=
  let t := dropwhile ascii_isspace (map to_ascii s) in
  let (neg, t1) := sign_of t in
  match digitpart t1 with
  | Some (ds, r) =>
      match dropwhile ascii_isspace r with
      | [] =>
          if int_max_str_digits <? Z.of_nat (length ds) then Raise ValueError
          else Ok (apply_sign neg (horner ds))
      | _ :: _ => Raise ValueError
      end
  | None => Raise ValueError
  end.

(** A Python [float]: a binary64 value. *)
Definition pyfloat : Type := spec_float.

Definition prec : Z := 53.
Definition emax : Z := 1024.

(** The double nearest to [m * 10 ^ e] (ties to even), for [m >= 0]. *)
Definition round_decimal (neg : bool) (m e : Z) : pyfloat :=
  if m =? 0 then S754_zero neg
  else if 0 <=? e then
    binary_normalize prec emax (apply_sign neg (m * 10 ^ e)) 0 false
  else
    let '(q, e', l) := SFdiv_core_binary prec emax m 0 (10 ^ (- e)) 0 in
    binary_round_aux prec emax neg q e' l.

Definition lower (c : char) : char :=
  if (65 <=? c) && (c <=? 90) then c + 32 else c.

Definition str_eqb (a b : pystr) : bool :=
  (length a =? length b)%nat && startswith a b.

(** The optional digit part before the point. *)
Definition opt_digitpart (s : pystr) : list Z * pystr :=
  match digitpart s with
  | Some p => p
  | None => ([], s)
  end.

(** The optional point and the digits after it. *)
Definition fraction (s : pystr) : list Z * pystr :=
  match s with
  | c :: r => if c =? 46 then opt_digitpart r else ([], s)
  | [] => ([], s)
  end.

(** [exponent ::= ("e" | "E") [sign] digitpart]; absent is exponent 0, an
    ['e'] without digits is left unread. *)
Definition exponent (s : pystr) : Z * pystr :=
  match s with
  | c :: r =>
      if (c =? 101) || (c =? 69) then
        let (neg, r1) := sign_of r in
        match digitpart r1 with
        | Some (ds, r2) => (apply_sign neg (horner ds), r2)
        | None => (0, s)
        end
      else (0, s)
  | [] => (0, s)
  end.

(** [floatnumber ::= ([digitpart] "." digitpart | digitpart ["."]) [exponent]],
    which must be the whole text. *)
Definition floatnumber (neg : bool) (s : pystr) : result pyfloat :=
  let (ip, r1) := opt_digitpart s in
  let (fp, r2) := fraction r1 in
  match ip ++ fp with
  | [] => Raise ValueError
  | _ :: _ =>
      let (ex, r3) := exponent r2 in
      match r3 with
      | [] => Ok (round_decimal neg (horner (ip ++ fp)) (ex - Z.of_nat (length fp)))
      | _ :: _ => Raise ValueError
      end
  end.

(** [float(text)]. *)
Definition float_of_str (s : pystr) : result pyfloat :=
  let t := dropwhile ascii_isspace (map to_ascii s) in
  let t := rev (dropwhile ascii_isspace (rev t)) in
  let (neg, t1) := sign_of t in
  let word := map lower t1 in
  if str_eqb word (u "inf") || str_eqb word (u "infinity") then
    Ok (S754_infinity neg)
  else if str_eqb word (u "nan") then Ok S754_nan
  else floatnumber neg t1.

(** [int(x)] for a float [x]: truncation towards zero. *)
Definition int_of_float (x : pyfloat) : result Z :=
  match x with
  | S754_zero _ => Ok 0
  | S754_finite s m e =>
      Ok (apply_sign s (if 0 <=? e then Zpos m * 2 ^ e else Zpos m / 2 ^ (- e)))
  | S754_infinity _ => Raise OverflowError
  | S754_nan => Raise ValueError
  end.

(** *** Numbers written as text *)

(** The decimal digits of [n >= 0], most significant first. *)
Fixpoint digits_of (fuel : nat) (n : Z) : pystr :=
  match fuel with
  | O => []
  | S fuel' =>
      if n <? 10 then [48 + n]
      else digits_of fuel' (n / 10) ++ [48 + n mod 10]
  end.

(** The decimal text of an int: a minus sign for a negative one, then
    the digits. *)
Definition decimal_text (n : Z) : pystr :=
  if n <? 0 then 45 :: digits_of (S (Z.to_nat (Z.log2 (- n)))) (- n)
  else digits_of (S (Z.to_nat (Z.log2 n))) n.

(** The decimal text padded on the left with ['0'] to two characters, the
    sign counting towards the width. *)
Definition two_digits (n : Z) : pystr :=
  let t := decimal_text n in
  if (length t <? 2)%nat then 48 :: t else t.

(** The number of digits of the decimal text, the sign not counted. *)
Definition digit_count (n : Z) : Z :=
  Z.of_nat (length (decimal_text (Z.abs n))).

(** [str(n)] for an int: a [ValueError] when the text would have more
    digits than the limit. *)
Definition str_of_int (n : Z) : result pystr :=
  if int_max_str_digits <? digit_count n then Raise ValueError
  else Ok (decimal_text n).

(** [f"{n:02d}"]: the decimal text, under the same limit, padded to two
    characters. *)
Definition format_02d (n : Z) : result pystr :=
  t <- str_of_int n ;;
  Ok (if (length t <? 2)%nat then 48 :: t else t).

End Py.


Import Py.

(** ** [datetime.datetime.strptime(text, '%y%m%d')] and [weekday()] *)

Module Datetime.

Record date : Type := mkdate { year : Z; month : Z; day : Z }.

Definition is_leap (y : Z) : bool :=
  (y mod 4 =? 0) && (negb (y mod 100 =? 0) || (y mod 400 =? 0)).

Definition days_in_month (y m : Z) : Z :=
  if (m =? 2) && is_leap y then 29
  else nth (Z.to_nat m) [0; 31; 28; 31; 30; 31; 30; 31; 31; 30; 31; 30; 31] 0.

Definition days_before_year (y : Z) : Z :=
  let y1 := y - 1 in y1 * 365 + y1 / 4 - y1 / 100 + y1 / 400.

Definition days_before_month (y m : Z) : Z :=
  nth (Z.to_nat m) [0; 0; 31; 59; 90; 120; 151; 181; 212; 243; 273; 304; 334] 0
  + (if (2 <? m) && is_leap y then 1 else 0).

(** The proleptic Gregorian ordinal: 1 January of year 1 is day 1. *)
Definition ymd2ord (y m d : Z) : Z :=
  days_before_year y + days_before_month y m + d.

(** [date.weekday()]: Monday is 0, Sunday is 6. *)
Definition weekday (dt : date) : Z :=
  (ymd2ord (year dt) (month dt) (day dt) + 6) mod 7.

(** The date constructor, which rejects a day the month does not have. *)
Definition make_date (y m d : Z) : result date :=
  if (1 <=? m) && (m <=? 12) && (1 <=? d) && (d <=? days_in_month y m)
  then Ok (mkdate y m d)
  else Raise ValueError.

Definition isdecimal (c : char) : bool :=
  match decimal c with
  | Some _ => true
  | None => false
  end.

Definition between (lo hi : string) (c : char) : bool :=
  match u lo, u hi with
  | [a], [b] => (a <=? c) && (c <=? b)
  | _, _ => false
  end.

Definition is_char (a : string) (c : char) : bool := between a a c.

(** One alternative of a group: the characters it must match, in order.
    Returns the matched text and the unread text. *)
Fixpoint alt (classes : list (char -> bool)) (s : pystr)
    : list (pystr * pystr) :=
  match classes, s with
  | [], _ => [([], s)]
  | _ :: _, [] => []
  | p :: classes', c :: s' =>
      if p c then map (fun mr => (c :: fst mr, snd mr)) (alt classes' s')
      else []
  end.

(** [%y] is [\d\d]. *)
Definition re_y (s : pystr) : list (pystr * pystr) :=
  alt [isdecimal; isdecimal] s.

(** [%m] is [1[0-2]|0[1-9]|[1-9]], alternatives in this order. *)
Definition re_m (s : pystr) : list (pystr * pystr) :=
  alt [is_char "1"; between "0" "2"] s
  ++ alt [is_char "0"; between "1" "9"] s
  ++ alt [between "1" "9"] s.

(** [%d] is [3[0-1]|[1-2]\d|0[1-9]|[1-9]| [1-9]]. *)
Definition re_d (s : pystr) : list (pystr * pystr) :=
  alt [is_char "3"; between "0" "1"] s
  ++ alt [between "1" "2"; isdecimal] s
  ++ alt [is_char "0"; between "1" "9"] s
  ++ alt [between "1" "9"] s
  ++ alt [is_char " "; between "1" "9"] s.

(** Every way the pattern matches a prefix of the text, the one the
    backtracking matcher finds first at the head. *)
Definition re_yymmdd (s : pystr) : list (pystr * pystr * pystr * pystr) :=
  flat_map (fun yr =>
    flat_map (fun mr =>
      map (fun dr => (fst yr, fst mr, fst dr, snd dr)) (re_d (snd mr)))
      (re_m (snd yr)))
    (re_y s).

(** [strptime(text, '%y%m%d')]: the text must match the pattern with
    nothing left over; years 00..68 are 2000..2068, 69..99 are 1969..1999. *)
Definition strptime_yymmdd (s : pystr) : result date :=
  match re_yymmdd s with
  | [] => Raise ValueError
  | (y, m, d, rest) :: _ =>
      match rest with
      | _ :: _ => Raise ValueError
      | [] =>
          yy <- int_of_str y ;;
          mm <- int_of_str m ;;
          dd <- int_of_str d ;;
          make_date (if yy <=? 68 then yy + 2000 else yy + 1900) mm dd
      end
  end.

End Datetime.

(** ** pandas frames *)

Module Pandas.

(** A cell as the program sees it: missing (NaN, None), or a value, known
    by the text [str(x)] gives for it. *)
Inductive cell : Type :=
| NaN
| Value (text : pystr).

(** [pd.notna(x)]. *)
Definition notna (c : cell) : bool :=
  match c with
  | NaN => false
  | Value _ => true
  end.

(** [str(x)]. *)
Definition str (c : cell) : pystr :=
  match c with
  | NaN => u "nan"
  | Value t => t
  end.

(** A frame: [shape] and the cell at each position inside it. *)
Record DataFrame (A : Type) : Type := mkframe {
  nrows : nat;
  ncols : nat;
  cell_at : nat -> nat -> A
}.

Arguments mkframe {A}.
Arguments nrows {A}.
Arguments ncols {A}.
Arguments cell_at {A}.

(** [df.iloc[row, col]] for non-negative positions. *)
Definition iloc {A : Type} (df : DataFrame A) (row col : nat) : result A :=
  if (row <? nrows df)%nat && (col <? ncols df)%nat
  then Ok (cell_at df row col)
  else Raise IndexError.

(** [df.fillna('').astype(str)]. *)
Definition fillna_astype_str (df : DataFrame cell) : DataFrame pystr :=
  mkframe (nrows df) (ncols df)
    (fun row col => match cell_at df row col with
                    | NaN => []
                    | Value t => t
                    end).

(** The frame of a list of rows; short rows are filled with missing
    cells, as the [DataFrame] constructor does. *)
Definition of_rows (rows : list (list cell)) : DataFrame cell :=
  mkframe (length rows)
    (fold_right (fun r n => Nat.max (length r) n) O rows)
    (fun row col => nth col (nth row rows []) NaN).

End Pandas.

Import Datetime Pandas.

(** ** The program: [app.py] *)

(** *** Time helpers *)

(** The fields a [datetime.time] can have: the constructor of the class
    accepts no others. *)
Definition valid_time (hour minute second : Z) : bool :=
  (0 <=? hour) && (hour <=? 23) && (0 <=? minute) && (minute <=? 59)
  && (0 <=? second) && (second <=? 59).

(** A [datetime.time] (its microseconds play no part). *)
Record time_of_day : Type := mktime {
  hour : Z;
  minute : Z;
  second : Z;
  time_in_range : valid_time hour minute second = true
}.

(** The argument of [convert_to_time_str]: a [datetime.time], a [str], or
    any other value, known by the text [str(x)] gives for it. *)
Inductive time_val : Type :=
| TimeOfDay (t : time_of_day)
| Str (s : pystr)
| Other (text : pystr).

(** [s.zfill(2)]: padded on the left with ['0'] to two characters, after a
    leading sign if there is one. *)
Definition zfill2 (s : pystr) : pystr :=
  match s with
  | [] => [48; 48]
  | [c] => if (c =? 43) || (c =? 45) then [c; 48] else [48; c]
  | _ :: _ :: _ => s
  end.

Definition convert_to_time_str (v : time_val) : result pystr :=
  match v with
  | TimeOfDay t =>
      h <- format_02d (hour t) ;;
      m <- format_02d (minute t) ;;
      s <- format_02d (second t) ;;
      Ok (h ++ u ":" ++ m ++ u ":" ++ s)
  | Str time_str =>
      parts <- split time_str (u ":") ;;
      if (3 <=? length parts)%nat then
        p0 <- getitem parts 0 ;;
        p1 <- getitem parts 1 ;;
        p2 <- getitem parts 2 ;;
        Ok (zfill2 p0 ++ u ":" ++ zfill2 p1 ++ u ":" ++ zfill2 p2)
      else if (length parts =? 2)%nat then
        p0 <- getitem parts 0 ;;
        p1 <- getitem parts 1 ;;
        Ok (zfill2 p0 ++ u ":" ++ zfill2 p1 ++ u ":00")
      else Ok time_str
  | Other text => Ok text
  end.

(** [except Exception]: every exception of the model is caught. *)
Definition any_exception (e : exn) : bool := true.

(** [time_to_seconds]: the [try] body. *)
Definition time_to_seconds_body (time_str : pystr) : result (option Z) :=
  parts <- split time_str (u ":") ;;
  p0 <- getitem parts 0 ;;
  hours <- int_of_str p0 ;;
  p1 <- getitem parts 1 ;;
  minutes <- int_of_str p1 ;;
  seconds <- (if (3 <=? length parts)%nat
              then p2 <- getitem parts 2 ;;
                   x <- float_of_str p2 ;;
                   int_of_float x
              else Ok 0) ;;
  Ok (Some (hours * 3600 + minutes * 60 + seconds)).

Definition time_to_seconds (time_str : pystr) : result (option Z) :=
  try_except (time_to_seconds_body time_str) any_exception (Ok None).

(** [seconds_to_time_str] on an int. *)
Definition seconds_to_time_str (seconds : Z) : result pystr :=
  let hours := seconds / 3600 in
  let minutes := (seconds mod 3600) / 60 in
  let seconds := seconds mod 60 in
  h <- format_02d hours ;;
  m <- format_02d minutes ;;
  s <- format_02d seconds ;;
  Ok (h ++ u ":" ++ m ++ u ":" ++ s).

(** *** The program locator *)

(** The returned tuple: [(rating, row, col)] or [(None, None, None)]. *)
Definition MatchResult : Type := (option pyfloat * option nat * option nat)%type.

(** [except (IndexError, ValueError)]. *)
Definition index_or_value_error (e : exn) : bool :=
  match e with
  | IndexError | ValueError => true
  | OverflowError => false
  end.

(** [cell_value.split(program_name)[1].strip().split('(')[0].strip()]. *)
Definition rating_str (cell_value program_name : pystr) : result pystr :=
  parts <- split cell_value program_name ;;
  tail <- getitem parts 1 ;;
  pieces <- split (strip tail) (u "(") ;;
  head <- getitem pieces 0 ;;
  Ok (strip head).

(** The two candidate tests of the loop body. *)
Definition is_candidate (cell_value program_name : pystr) : bool :=
  negb (length cell_value =? 0)%nat
  && contains program_name cell_value
  && any_isdigit cell_value.

(** The loop body at one position: [Some] is the [return], [None] falls
    through to the next row (no candidate, or the [continue] of the
    handler). *)
Definition inspect_cell (df_str : DataFrame pystr) (program_name : pystr)
    (col row : nat) : result (option (pyfloat * nat * nat)) :=
  text <- iloc df_str row col ;;
  let cell_value := strip text in
  if negb (length cell_value =? 0)%nat && contains program_name cell_value then
    if any_isdigit cell_value then
      try_except
        (rs <- rating_str cell_value program_name ;;
         rating <- float_of_str rs ;;
         Ok (Some (rating, row, col)))
        index_or_value_error
        (Ok None)
    else Ok None
  else Ok None.

Definition find_program_data_improved (sheet : DataFrame cell)
    (program_names : list pystr) : result MatchResult :=
  let df_str := fillna_astype_str sheet in
  found <- for_each program_names (fun program_name =>
             for_each (range 1 5) (fun col =>
               for_each (range 0 (nrows df_str)) (fun row =>
                 inspect_cell df_str program_name col row))) ;;
  match found with
  | Some (rating, row, col) => Ok (Some rating, Some row, Some col)
  | None => Ok (None, None, None)
  end.

(** *** The aggregator *)

Record RatingRecord : Type := mkrecord {
  name : pystr;
  paid : option pyfloat;
  rating_2049 : option pyfloat
}.

(** A [dict] with string keys, in insertion order. *)
Definition dict (V : Type) : Type := list (pystr * V).

(** [d[key] = v]: replaces the value of a key already there, appends a new
    key at the end. *)
Fixpoint dict_set {V : Type} (d : dict V) (key : pystr) (v : V) : dict V :=
  match d with
  | [] => [(key, v)]
  | (k, w) :: d' =>
      if str_eqb k key then (k, v) :: d' else (k, w) :: dict_set d' key v
  end.

(** The [programs] table. *)
Definition programs (is_weekend : bool) : dict (list pystr) :=
  [ (u "news_a", [u "뉴스A"; u "특집뉴스A"]);
    (u "jtbc", [u "JTBC뉴스룸"; u "특집JTBC뉴스룸"]);
    (u "mbn", if is_weekend then [u "MBN뉴스센터"; u "특집MBN뉴스센터"]
              else [u "MBN뉴스7"; u "특집MBN뉴스7"]);
    (u "tv_chosun", if is_weekend then [u "TV조선뉴스7"; u "특집TV조선뉴스7"]
                    else [u "TV조선뉴스9"; u "특집TV조선뉴스9"]) ].

(** The loop over [programs.items()], threading [ratings]. *)
Fixpoint collect_ratings (sheet_paid sheet_2049 : DataFrame cell)
    (items : dict (list pystr)) (ratings : dict RatingRecord)
    : result (dict RatingRecord) :=
  match items with
  | [] => Ok ratings
  | (program_key, program_names) :: items' =>
      p <- find_program_data_improved sheet_paid program_names ;;
      let '(paid_rating, _, _) := p in
      q <- find_program_data_improved sheet_2049 program_names ;;
      let '(rating_2049, _, _) := q in
      name0 <- getitem program_names 0 ;;
      collect_ratings sheet_paid sheet_2049 items'
        (dict_set ratings program_key (mkrecord name0 paid_rating rating_2049))
  end.

(** [date.weekday() >= 5]. *)
Definition is_weekend_date (dt : date) : bool := 5 <=? weekday dt.

Definition get_program_ratings (sheet_paid sheet_2049 : DataFrame cell)
    (date_str : pystr) : result (dict RatingRecord) :=
  dt <- strptime_yymmdd date_str ;;
  let is_weekend := is_weekend_date dt in
  collect_ratings sheet_paid sheet_2049 (programs is_weekend) [].

(** *** The structured region finder, [find_news_a_data] *)

(** [pd.notna(x) and str(x).strip() == "프로그램"]. *)
Definition is_header_cell (c : cell) : bool :=
  notna c && str_eqb (strip (str c)) (u "프로그램").

(** The header-row lookup: the first loop and the [raise] after it. *)
Definition find_program_row (df : DataFrame cell) : result nat :=
  found <- for_each (range 0 (nrows df)) (fun row =>
             c <- iloc df row 0 ;;
             if is_header_cell c then Ok (Some row) else Ok None) ;;
  match found with
  | Some program_row => Ok program_row
  | None => Raise ValueError
  end.

(** The list [program_cols]: the header columns of the header row. *)
Fixpoint collect_program_cols (df : DataFrame cell) (program_row : nat)
    (cols : list nat) : result (list nat) :=
  match cols with
  | [] => Ok []
  | col :: cols' =>
      c <- iloc df program_row col ;;
      rest <- collect_program_cols df program_row cols' ;;
      Ok (if is_header_cell c then col :: rest else rest)
  end.

(** The search for the 2049 column in row 0, a window of at most ten
    columns from [program_col]. *)
Definition find_2049_col (df : DataFrame cell) (program_col : nat)
    : result (option nat) :=
  for_each (range program_col (Nat.min (program_col + 10) (ncols df)))
    (fun col =>
       c <- iloc df 0 col ;;
       if notna c && contains (u "수도권 2049") (str c)
       then Ok (Some col) else Ok None).

(** The five variables set in the match block. *)
Record Region : Type := mkregion {
  news_a_row : nat;
  found_program_col : nat;
  found_time_col : nat;
  found_rating_col : nat;
  found_2049_col : option nat
}.

(** [val in ["뉴스A", "특집뉴스A"]]. *)
Definition is_news_a (val : pystr) : bool :=
  existsb (str_eqb val) [u "뉴스A"; u "특집뉴스A"].

(** The match block: the assignments and the 2049 search. *)
Definition match_block (df : DataFrame cell) (row program_col : nat)
    : result Region :=
  c2049 <- find_2049_col df program_col ;;
  Ok (mkregion row program_col (program_col + 1) (program_col + 2) c2049).

(** The body of the inner loop at one row of a header column: the two
    tests and, on a match, the match block. *)
Definition inspect_row (df : DataFrame cell) (program_col row : nat)
    : result (option Region) :=
  c <- iloc df row program_col ;;
  if notna c then
    let val := strip (str c) in
    if is_news_a val then
      region <- match_block df row program_col ;;
      Ok (Some region)
    else Ok None
  else Ok None.

(** Modelled from the spec: the source text of [find_news_a_data] ends
    inside the match block, right after the 2049 search; what is missing is
    the way out of the two loops and the returned value. The spec (4.5)
    says the first match fixes the columns and that the function returns
    them, so the scan below stops at the first match and yields the block's
    variables; [None] stands for a scan that finds no News A row. The loops,
    the tests and the match block are the source's. *)
Definition scan_news_a (df : DataFrame cell) (program_row : nat)
    (program_cols : list nat) : result (option Region) :=
  for_each program_cols (fun program_col =>
    for_each (range (program_row + 1) (nrows df))
      (inspect_row df program_col)).

Definition find_news_a_data (df : DataFrame cell) : result (option Region) :=
  program_row <- find_program_row df ;;
  program_cols <- collect_program_cols df program_row (range 0 (ncols df)) ;;
  scan_news_a df program_row program_cols.

(** ** The claims' own words, as definitions to compare the code with *)

Definition to_option {A : Type} (r : result A) : option A :=
  match r with
  | Ok a => Some a
  | Raise _ => None
  end.

(** [time_to_seconds] as the description reads: split on [':'], at least
    two parts, the seconds part optional (0 when absent) and read as a
    float, then truncated; any part that does not parse gives null. *)
Definition spec_time_to_seconds (text : pystr) : option Z :=
  match split_pieces (length text) (u ":") text with
  | hh :: mm :: rest =>
      let seconds :=
        match rest with
        | [] => Some 0
        | ss :: _ =>
            match to_option (float_of_str ss) with
            | Some x => to_option (int_of_float x)
            | None => None
            end
        end in
      match to_option (int_of_str hh), to_option (int_of_str mm), seconds with
      | Some h, Some m, Some s => Some (h * 3600 + m * 60 + s)
      | _, _, _ => None
      end
  | _ => None
  end.

(** The least int that has more digits than the limit allows: the ints
    with a decimal text are those below it in absolute value. *)
Definition int_text_limit : Z := 10 ^ int_max_str_digits.

(** A canonical time text: three two-digit, zero-padded fields. *)
Definition hhmmss (h m s : Z) : pystr :=
  two_digits h ++ u ":" ++ two_digits m ++ u ":" ++ two_digits s.

(** An ASCII digit, and the digit values of a text of digits. *)
Definition digit_char (c : char) : Prop := 48 <= c <= 57.

Definition digit_values (s : pystr) : list Z := map (fun c => c - 48) s.

(** Whether the two-digit text of [k] goes through [float] and [int]
    back to [k]. *)
Definition seconds_field_ok (k : nat) : bool :=
  match x <- float_of_str (two_digits (Z.of_nat k)) ;; int_of_float x with
  | Ok v => v =? Z.of_nat k
  | Raise _ => false
  end.

(** The first element on which [g] answers, with the answer. *)
Fixpoint first_some {A R : Type} (g : A -> option R) (xs : list A) : option R :=
  match xs with
  | [] => None
  | x :: xs' =>
      match g x with
      | Some r => Some r
      | None => first_some g xs'
      end
  end.

(** The text of a cell once the frame is made of strings. *)
Definition text_at (sheet : DataFrame cell) (row col : nat) : pystr :=
  cell_at (fillna_astype_str sheet) row col.

(** The rating the loop body parses. *)
Definition parsed_rating (cell_value name : pystr) : result pyfloat :=
  rs <- rating_str cell_value name ;; float_of_str rs.

(** What a cell yields for a variant: the rating, when the trimmed text is
    a candidate and the text cut out of it parses as a float. *)
Definition cell_rating (text v : pystr) : option pyfloat :=
  let cell_value := strip text in
  if is_candidate cell_value v
  then to_option (parsed_rating cell_value v)
  else None.

(** The order of the scan: variants in list order, for each the columns 1
    to 4, for each column the rows from the top. *)
Definition scan_order (names : list pystr) (n : nat)
    : list (pystr * nat * nat) :=
  flat_map (fun v =>
    flat_map (fun col => map (fun row => (v, col, row)) (range 0 n))
      [1; 2; 3; 4]%nat)
    names.

Definition rating_at (sheet : DataFrame cell) (p : pystr * nat * nat)
    : option (pyfloat * nat * nat) :=
  let '(v, col, row) := p in
  match cell_rating (text_at sheet row col) v with
  | Some x => Some (x, row, col)
  | None => None
  end.

(** The locator as the description reads: the first position of the scan
    order whose cell yields a rating, or three nulls. *)
Definition spec_locate (sheet : DataFrame cell) (names : list pystr)
    : MatchResult :=
  match first_some (rating_at sheet) (scan_order names (nrows sheet)) with
  | Some (x, row, col) => (Some x, Some row, Some col)
  | None => (None, None, None)
  end.

(** The positions the scan for the first variant visits before
    [(row0, col0)]. *)
Definition scanned_before (sheet : DataFrame cell) (row0 col0 row col : nat)
    : Prop :=
  ((1 <= col < col0)%nat /\ (row < nrows sheet)%nat)
  \/ (col = col0 /\ (row < row0)%nat).

(** The doubles nearest to 12.3 and to 8.1. *)
Definition rating_12_3 : pyfloat := S754_finite false 6924284427082138 (-49).
Definition rating_8_1 : pyfloat := S754_finite false 4559894622712627 (-49).

(** [x] is a normal positive double within half a unit in the last place
    of [num / den]. *)
Definition nearest_double (num den : Z) (x : pyfloat) : Prop :=
  match x with
  | S754_finite false m e =>
      Zpos (digits2_pos m) = prec /\ e < 0
      /\ 2 * Z.abs (num * 2 ^ (- e) - den * Zpos m) <= den
  | _ => False
  end.

(** Frames of the examples. *)
Definition blank_row : list cell := [NaN; NaN; NaN; NaN; NaN].

Definition percent_sheet : DataFrame cell :=
  of_rows [ blank_row; blank_row; blank_row;
            [NaN; NaN; Value (u "뉴스A 12.3% (최종)"); NaN; NaN] ].

Definition annotated_sheet : DataFrame cell :=
  of_rows [ blank_row; blank_row; blank_row;
            [NaN; NaN; Value (u "뉴스A 12.3 (최종)"); NaN; NaN] ].

Definition three_column_sheet : DataFrame cell :=
  of_rows [ [NaN; Value (u "채널A"); NaN] ].

Definition news_a_names : list pystr := [u "뉴스A"; u "특집뉴스A"].

(** *** The rating text, in the description's words *)

(** What follows the first occurrence of [name] in [text]. *)
Definition text_after_first (name text : pystr) : option pystr :=
  match find name text with
  | Some i => Some (skipn (i + length name) text)
  | None => None
  end.

(** What precedes the first occurrence of [name] in [text]: all of the
    text when the name does not occur. *)
Definition text_before_first (name text : pystr) : pystr :=
  match find name text with
  | Some i => firstn i text
  | None => text
  end.

(** The text cut at the first occurrence of the character [c]. *)
Fixpoint truncate_at (c : char) (s : pystr) : pystr :=
  match s with
  | [] => []
  | x :: s' => if x =? c then [] else x :: truncate_at c s'
  end.

(** The rating as the description reads: the text after the first
    occurrence of the name, trimmed, cut at the first ['('], trimmed again
    and parsed as a float. *)
Definition spec_rating (cell_value name : pystr) : result pyfloat :=
  match text_after_first name cell_value with
  | Some after => float_of_str (strip (truncate_at 40 (strip after)))
  | None => Raise IndexError
  end.

(** *** Dates *)

(** The text [YYMMDD] of a two-digit year, a month and a day. *)
Definition yymmdd (y m d : Z) : pystr :=
  two_digits y ++ two_digits m ++ two_digits d.

(** The two-digit-year convention: 00..68 are 2000..2068, 69..99 are
    1969..1999. *)
Definition full_year (y : Z) : Z := if y <=? 68 then 2000 + y else 1900 + y.

(** A well-formed date: a two-digit year, a month, and a day that the
    month has in that year. *)
Definition valid_yymmdd (y m d : Z) : Prop :=
  0 <= y <= 99 /\ 1 <= m <= 12 /\ 1 <= d <= days_in_month (full_year y) m.

(** The day of the week by Zeller's congruence: 0 is Saturday, 1 is
    Sunday, 2 is Monday and so on. *)
Definition zeller (y m d : Z) : Z :=
  let y' := if m <? 3 then y - 1 else y in
  let m' := if m <? 3 then m + 12 else m in
  let k := y' mod 100 in
  let j := y' / 100 in
  (d + 13 * (m' + 1) / 5 + k + k / 4 + j / 4 + 5 * j) mod 7.

Definition saturday_or_sunday (y m d : Z) : bool := zeller y m d <=? 1.

(** One line of the table checked for every date of the hundred years. *)
Definition date_case_ok (y m d : nat) : bool :=
  let y := Z.of_nat y in
  let m := Z.of_nat m in
  let d := Z.of_nat d in
  if d <=? days_in_month (full_year y) m then
    match strptime_yymmdd (yymmdd y m d) with
    | Ok dt =>
        (year dt =? full_year y) && (month dt =? m) && (day dt =? d)
        && Bool.eqb (is_weekend_date dt) (saturday_or_sunday (full_year y) m d)
    | Raise _ => false
    end
  else true.

(** *** The aggregate, in the description's words *)

Inductive ProgramKey : Type := news_a | jtbc | mbn | tv_chosun.

Definition key_text (k : ProgramKey) : pystr :=
  match k with
  | news_a => u "news_a"
  | jtbc => u "jtbc"
  | mbn => u "mbn"
  | tv_chosun => u "tv_chosun"
  end.

(** The normal name of a program on a weekday or a weekend day. *)
Definition normal_name (k : ProgramKey) (weekend : bool) : pystr :=
  match k with
  | news_a => u "뉴스A"
  | jtbc => u "JTBC뉴스룸"
  | mbn => if weekend then u "MBN뉴스센터" else u "MBN뉴스7"
  | tv_chosun => if weekend then u "TV조선뉴스7" else u "TV조선뉴스9"
  end.

(** The variants to try: the normal name, then the special edition. *)
Definition resolve_variants (k : ProgramKey) (weekend : bool) : list pystr :=
  [normal_name k weekend; u "특집" ++ normal_name k weekend].

Definition rating_of (r : MatchResult) : option pyfloat := fst (fst r).

(** The columns the locator reads exist, or there is no row to read. *)
Definition scan_fits (sheet : DataFrame cell) : Prop :=
  (5 <= ncols sheet)%nat \/ nrows sheet = O.

Definition spec_record (sheet_paid sheet_2049 : DataFrame cell)
    (weekend : bool) (k : ProgramKey) : RatingRecord :=
  mkrecord (normal_name k weekend)
    (rating_of (spec_locate sheet_paid (resolve_variants k weekend)))
    (rating_of (spec_locate sheet_2049 (resolve_variants k weekend))).

(** One record per key, in the order of the roster; the name is the
    normal name, each rating what the locator finds in that frame. *)
Definition spec_ratings (sheet_paid sheet_2049 : DataFrame cell)
    (weekend : bool) : dict RatingRecord :=
  map (fun k => (key_text k, spec_record sheet_paid sheet_2049 weekend k))
    [news_a; jtbc; mbn; tv_chosun].

(** [d.get(key)]. *)
Fixpoint dict_get {V : Type} (d : dict V) (key : pystr) : option V :=
  match d with
  | [] => None
  | (k, v) :: d' => if str_eqb k key then Some v else dict_get d' key
  end.

Definition one_column_sheet : DataFrame cell := of_rows [ [Value (u "채널A")] ].

Definition mbn_sheet : DataFrame cell :=
  of_rows [ blank_row; [NaN; NaN; NaN; Value (u "MBN뉴스7 8.1"); NaN] ].

(** A frame whose only cell is [t], at [(row0, col0)]. *)
Definition only_cell (sheet : DataFrame cell) (row0 col0 : nat) (t : pystr)
    : Prop :=
  cell_at sheet row0 col0 = Value t
  /\ forall row col, row <> row0 \/ col <> col0 -> cell_at sheet row col = NaN.

Definition mbn_weekday_names : list pystr := [u "MBN뉴스7"; u "특집MBN뉴스7"].
Definition mbn_weekend_names : list pystr := [u "MBN뉴스센터"; u "특집MBN뉴스센터"].

Definition repeated_name_cell : pystr := u "뉴스A 12.3 뉴스A".

Definition special_sheet : DataFrame cell :=
  of_rows [ [NaN; Value (u "특집뉴스A 12.3"); NaN; NaN; NaN] ].

(** *** The structured region finder, in the description's words *)

(** [pd.notna(x)] and [str(x).strip() in ["뉴스A", "특집뉴스A"]], the test
    of the inner loop. *)
Definition is_news_a_cell (c : cell) : bool :=
  notna c && is_news_a (strip (str c)).

(** [pd.notna(x) and "수도권 2049" in str(x)], the test of the 2049 search. *)
Definition is_2049_cell (c : cell) : bool :=
  notna c && contains (u "수도권 2049") (str c).

(** The columns the 2049 search looks at. *)
Definition window (df : DataFrame cell) (program_col : nat) : list nat :=
  range program_col (Nat.min (program_col + 10) (ncols df)).

(** The first column of the window whose cell in row 0 has the marker. *)
Definition first_2049_col (df : DataFrame cell) (program_col : nat)
    : option nat :=
  first_some (fun col => if is_2049_cell (cell_at df 0 col) then Some col else None)
    (window df program_col).

Definition header_literal : pystr := u "프로그램".

Definition padded_header_sheet : DataFrame cell :=
  of_rows [ [Value (u " 프로그램 ")]; [Value (u "뉴스A")] ].

Definition no_column_sheet : DataFrame cell := of_rows [ []; [] ].

Definition structured_sheet : DataFrame cell :=
  of_rows [ [Value (u "프로그램"); Value (u "시간"); Value (u "시청률");
             Value (u "수도권 2049")];
            [Value (u "뉴스특보")]; [NaN]; [Value (u "뉴스A 라이브")]; [NaN];
            [Value (u "뉴스A"); Value (u "19:00:00"); Value (u "3.2")] ].

(** [annotated_sheet] with other contents in column 0 and a sixth column. *)
Definition relabelled_sheet : DataFrame cell :=
  mkframe (nrows annotated_sheet) (ncols annotated_sheet)
    (fun row col =>
       match col with
       | O => Value (u "뉴스A 9.9")
       | _ => cell_at annotated_sheet row col
       end).

(** * Lemmas and theorems *)

(** ** Loops *)

Lemma for_each_all_none {A R : Type} (xs : list A)
    (body : A -> result (option R)) :
  (forall x, In x xs -> body x = Ok None) -> for_each xs body = Ok None.
Proof.
  induction xs as [|x xs IH]; intros H; simpl; [reflexivity|].
  rewrite (H x (or_introl eq_refl)). apply IH. intros y Hy. apply H. now right.
Qed.

Lemma for_each_app {A R : Type} (xs ys : list A)
    (body : A -> result (option R)) :
  for_each (xs ++ ys) body =
  match for_each xs body with
  | Ok None => for_each ys body
  | other => other
  end.
Proof.
  induction xs as [|x xs IH]; simpl; [now destruct (for_each ys body) as [[?|]|]|].
  destruct (body x) as [[r|]|e]; auto.
Qed.

Lemma for_each_ext_in {A R : Type} (xs : list A)
    (f g : A -> result (option R)) :
  (forall x, In x xs -> f x = g x) -> for_each xs f = for_each xs g.
Proof.
  induction xs as [|x xs IH]; intros H; simpl; [reflexivity|].
  rewrite (H x (or_introl eq_refl)), IH; [reflexivity|].
  intros y Hy. apply H. now right.
Qed.

Lemma in_range_iff (lo hi x : nat) :
  In x (range lo hi) <-> (lo <= x < hi)%nat.
Proof. unfold range. rewrite in_seq. lia. Qed.

Lemma range_split (lo mid hi : nat) :
  (lo <= mid <= hi)%nat -> range lo hi = range lo mid ++ range mid hi.
Proof.
  intros H. unfold range.
  replace (hi - lo)%nat with ((mid - lo) + (hi - mid))%nat by lia.
  rewrite seq_app. do 2 f_equal. lia.
Qed.

Lemma range_cons (lo hi : nat) :
  (lo < hi)%nat -> range lo hi = lo :: range (S lo) hi.
Proof.
  intros H. unfold range.
  replace (hi - lo)%nat with (S (hi - S lo)) by lia. reflexivity.
Qed.

(** The first iteration that returns decides the loop. *)
Lemma for_each_range_first {R : Type} (lo hi k : nat)
    (body : nat -> result (option R)) (r : R) :
  (lo <= k < hi)%nat ->
  (forall i, (lo <= i < k)%nat -> body i = Ok None) ->
  body k = Ok (Some r) ->
  for_each (range lo hi) body = Ok (Some r).
Proof.
  intros Hk Hbefore Hat.
  rewrite (range_split lo k hi) by lia.
  rewrite for_each_app, for_each_all_none.
  - rewrite (range_cons k hi) by lia. simpl. now rewrite Hat.
  - intros i Hi. apply Hbefore. now apply in_range_iff.
Qed.

(** ** Strings: [find] and [split] *)

Lemma find_eq (sub s : pystr) :
  find sub s =
  if startswith sub s then Some O
  else match s with
       | [] => None
       | _ :: s' => option_map S (find sub s')
       end.
Proof. destruct s; reflexivity. Qed.

Lemma startswith_app (p t : pystr) : startswith p (p ++ t) = true.
Proof.
  induction p as [|a p IH]; simpl; [reflexivity|].
  now rewrite Z.eqb_refl, IH.
Qed.

Lemma startswith_inv (p s : pystr) :
  startswith p s = true -> s = p ++ skipn (length p) s.
Proof.
  revert s. induction p as [|a p IH]; intros s H; [reflexivity|].
  destruct s as [|b s]; simpl in H; [discriminate|].
  apply andb_prop in H. destruct H as [Hab Hps].
  apply Z.eqb_eq in Hab. subst b. simpl. f_equal. now apply IH.
Qed.

Lemma startswith_length (p s : pystr) :
  startswith p s = true -> (length p <= length s)%nat.
Proof.
  intros H. rewrite (startswith_inv p s H), length_app. lia.
Qed.

Lemma find_bound (sep s : pystr) (i : nat) :
  find sep s = Some i -> (i + length sep <= length s)%nat.
Proof.
  revert i. induction s as [|c s IH]; intros i; rewrite find_eq.
  - destruct (startswith sep []) eqn:E; [|discriminate].
    intros [= <-]. apply startswith_length in E. simpl in *. lia.
  - destruct (startswith sep (c :: s)) eqn:E.
    + intros [= <-]. apply startswith_length in E. simpl in *. lia.
    + destruct (find sep s) as [j|]; simpl; [|discriminate].
      intros [= <-]. specialize (IH j eq_refl). simpl. lia.
Qed.

(** At a found index the separator is there, and not before. *)
Lemma find_some_app (sep s : pystr) (i : nat) :
  find sep s = Some i ->
  s = firstn i s ++ sep ++ skipn (i + length sep) s.
Proof.
  revert i. induction s as [|c s IH]; intros i; rewrite find_eq.
  - destruct (startswith sep []) eqn:E; [|discriminate].
    intros [= <-]. simpl. now apply startswith_inv.
  - destruct (startswith sep (c :: s)) eqn:E.
    + intros [= <-]. simpl firstn. simpl app at 1. now apply startswith_inv.
    + destruct (find sep s) as [j|]; simpl; [|discriminate].
      intros [= <-]. simpl. f_equal. now apply IH.
Qed.

(** Fuel beyond the length of the text changes nothing. *)
Lemma split_pieces_fuel (sep : pystr) :
  sep <> [] ->
  forall f1 f2 s, (length s <= f1)%nat -> (length s <= f2)%nat ->
  split_pieces f1 sep s = split_pieces f2 sep s.
Proof.
  intros Hsep. induction f1 as [|f1 IH]; intros f2 s H1 H2.
  - destruct s; [|simpl in H1; lia].
    assert (E : find sep [] = None).
    { rewrite find_eq. destruct sep; [contradiction|reflexivity]. }
    destruct f2; cbn [split_pieces]; now rewrite E.
  - destruct f2 as [|f2].
    + destruct s; [|simpl in H2; lia].
      assert (E : find sep [] = None).
      { rewrite find_eq. destruct sep; [contradiction|reflexivity]. }
      cbn [split_pieces]. now rewrite E.
    + cbn [split_pieces]. destruct (find sep s) as [i|] eqn:E; [|reflexivity].
      f_equal. pose proof (find_bound _ _ _ E) as Hb.
      assert (0 < length sep)%nat by (destruct sep; [contradiction|simpl; lia]).
      apply IH; rewrite length_skipn; lia.
Qed.

(** The recursion [split] follows, free of fuel. *)
Lemma split_pieces_unfold (sep s : pystr) :
  sep <> [] ->
  split_pieces (length s) sep s =
  match find sep s with
  | None => [s]
  | Some i =>
      let rest := skipn (i + length sep) s in
      firstn i s :: split_pieces (length rest) sep rest
  end.
Proof.
  intros Hsep. destruct (find sep s) as [i|] eqn:E.
  - pose proof (find_bound _ _ _ E) as Hb.
    assert (0 < length sep)%nat by (destruct sep; [contradiction|simpl; lia]).
    destruct (length s) as [|n] eqn:El; [lia|].
    cbn [split_pieces]. rewrite E. cbv zeta. f_equal.
    apply split_pieces_fuel; auto; rewrite length_skipn; lia.
  - destruct (length s); cbn [split_pieces]; now rewrite E.
Qed.

Lemma find_char_none (c : char) (a : pystr) :
  Forall (fun x => x <> c) a -> find [c] a = None.
Proof.
  induction 1 as [|x a Hx Ha IH]; [reflexivity|].
  rewrite find_eq. simpl. apply Z.eqb_neq in Hx.
  rewrite Z.eqb_sym, Hx. simpl. now rewrite IH.
Qed.

Lemma find_char_app (c : char) (a rest : pystr) :
  Forall (fun x => x <> c) a -> find [c] (a ++ c :: rest) = Some (length a).
Proof.
  induction 1 as [|x a Hx Ha IH].
  - rewrite find_eq. simpl. now rewrite Z.eqb_refl.
  - rewrite find_eq. simpl. apply Z.eqb_neq in Hx.
    rewrite Z.eqb_sym, Hx. simpl. now rewrite IH.
Qed.

(** Splitting at a single character that the first field does not hold. *)
Lemma split_pieces_char (c : char) (a rest : pystr) :
  Forall (fun x => x <> c) a ->
  split_pieces (length (a ++ c :: rest)) [c] (a ++ c :: rest) =
  a :: split_pieces (length rest) [c] rest.
Proof.
  intros Ha. rewrite split_pieces_unfold by discriminate.
  rewrite (find_char_app c a rest Ha). cbv zeta.
  rewrite firstn_app, Nat.sub_diag, firstn_all. simpl firstn. rewrite app_nil_r.
  replace (length a + length [c])%nat with (length a + 1)%nat by reflexivity.
  rewrite skipn_app, skipn_all2 by lia.
  replace (length a + 1 - length a)%nat with 1%nat by lia. reflexivity.
Qed.

Lemma split_pieces_last (c : char) (a : pystr) :
  Forall (fun x => x <> c) a -> split_pieces (length a) [c] a = [a].
Proof.
  intros Ha. rewrite split_pieces_unfold by discriminate.
  now rewrite (find_char_none c a Ha).
Qed.

(** ** Numbers and their decimal text *)

Lemma digits_of_digit_chars (fuel : nat) :
  forall n, 0 <= n -> Forall digit_char (digits_of fuel n).
Proof.
  induction fuel as [|fuel IH]; intros n Hn; cbn [digits_of]; [constructor|].
  destruct (n <? 10) eqn:E.
  - apply Z.ltb_lt in E. constructor; [unfold digit_char; lia|constructor].
  - apply Forall_app. split.
    + apply IH. apply Z.div_pos; lia.
    + pose proof (Z.mod_pos_bound n 10 ltac:(lia)).
      constructor; [unfold digit_char; lia|constructor].
Qed.

Lemma horner_snoc (ds : list Z) (d : Z) :
  horner (ds ++ [d]) = 10 * horner ds + d.
Proof. unfold horner. now rewrite fold_left_app. Qed.

Lemma horner_digits_of (fuel : nat) :
  forall n, 0 <= n < 2 ^ Z.of_nat fuel ->
  horner (digit_values (digits_of fuel n)) = n.
Proof.
  induction fuel as [|fuel IH]; intros n Hn.
  - change (2 ^ Z.of_nat 0) with 1 in Hn. cbn [digits_of]. unfold horner. simpl. lia.
  - cbn [digits_of]. destruct (n <? 10) eqn:E.
    + unfold digit_values, horner. cbn [map fold_left]. lia.
    + apply Z.ltb_ge in E. unfold digit_values. rewrite map_app.
      change (map (fun c => c - 48) [48 + n mod 10]) with [48 + n mod 10 - 48].
      rewrite horner_snoc. fold (digit_values (digits_of fuel (n / 10))).
      rewrite IH.
      * pose proof (Z.div_mod n 10 ltac:(lia)). lia.
      * split; [apply Z.div_pos; lia|].
        apply Z.div_lt_upper_bound; [lia|].
        rewrite Nat2Z.inj_succ, Z.pow_succ_r in Hn by lia. lia.
Qed.

Lemma tenth_below (n x : Z) : 0 <= n -> (n / 10 < x <-> n < 10 * x).
Proof.
  intros Hn. pose proof (Z.div_mod n 10 ltac:(lia)) as E.
  pose proof (Z.mod_pos_bound n 10 ltac:(lia)) as B. lia.
Qed.

(** A text of at most [d] digits writes a number below [10 ^ d], and the
    other way round. *)
Lemma digits_of_length (fuel : nat) :
  forall n d, 0 <= n < 2 ^ Z.of_nat fuel -> 1 <= d ->
  (Z.of_nat (length (digits_of fuel n)) <= d <-> n < 10 ^ d).
Proof.
  induction fuel as [|fuel IH]; intros n d Hn Hd.
  - change (2 ^ Z.of_nat 0) with 1 in Hn. cbn [digits_of length].
    pose proof (Z.pow_pos_nonneg 10 d ltac:(lia) ltac:(lia)). lia.
  - cbn [digits_of]. destruct (n <? 10) eqn:E.
    + apply Z.ltb_lt in E. cbn [length].
      pose proof (Z.pow_le_mono_r 10 1 d ltac:(lia) Hd) as P.
      change (10 ^ 1) with 10 in P. lia.
    + apply Z.ltb_ge in E. rewrite length_app. cbn [length].
      rewrite Nat2Z.inj_add. change (Z.of_nat 1) with 1.
      assert (Hq : 0 <= n / 10 < 2 ^ Z.of_nat fuel).
      { split; [apply Z.div_pos; lia|].
        apply Z.div_lt_upper_bound; [lia|].
        rewrite Nat2Z.inj_succ, Z.pow_succ_r in Hn by lia. lia. }
      destruct (Z.eq_dec d 1) as [->|Hd1].
      * change (10 ^ 1) with 10.
        assert (1 <= Z.of_nat (length (digits_of fuel (n / 10)))); [|lia].
        destruct fuel as [|fuel'].
        { change (2 ^ Z.of_nat 0) with 1 in Hq.
          pose proof (tenth_below n 1 ltac:(lia)). lia. }
        cbn [digits_of]. destruct (n / 10 <? 10); [cbn [length]; lia|].
        rewrite length_app. cbn [length]. lia.
      * specialize (IH (n / 10) (d - 1) Hq ltac:(lia)).
        replace (10 ^ d) with (10 * 10 ^ (d - 1))
          by (rewrite <- Z.pow_succ_r by lia; f_equal; lia).
        pose proof (tenth_below n (10 ^ (d - 1)) ltac:(lia)). lia.
Qed.

Lemma decimal_text_nonneg (n : Z) :
  0 <= n ->
  Forall digit_char (decimal_text n)
  /\ decimal_text n <> []
  /\ horner (digit_values (decimal_text n)) = n.
Proof.
  intros Hn. unfold decimal_text.
  destruct (n <? 0) eqn:E; [apply Z.ltb_lt in E; lia|].
  split; [now apply digits_of_digit_chars|]. split.
  - cbn [digits_of]. destruct (n <? 10); [discriminate|].
    intros H. apply app_eq_nil in H. destruct H. discriminate.
  - apply horner_digits_of. split; [lia|].
    rewrite Nat2Z.inj_succ, Z2Nat.id by apply Z.log2_nonneg.
    destruct (Z.eq_dec n 0) as [->|]; [reflexivity|].
    apply Z.log2_spec. lia.
Qed.

Lemma decimal_text_length (n d : Z) :
  0 <= n -> 1 <= d ->
  (Z.of_nat (length (decimal_text n)) <= d <-> n < 10 ^ d).
Proof.
  intros Hn Hd. unfold decimal_text.
  destruct (n <? 0) eqn:E; [apply Z.ltb_lt in E; lia|].
  apply digits_of_length; [|assumption]. split; [lia|].
  rewrite Nat2Z.inj_succ, Z2Nat.id by apply Z.log2_nonneg.
  destruct (Z.eq_dec n 0) as [->|]; [reflexivity|].
  apply Z.log2_spec. lia.
Qed.

Lemma decimal_text_negative (n : Z) :
  n < 0 ->
  exists ds, decimal_text n = 45 :: ds
             /\ ds = decimal_text (- n)
             /\ Forall digit_char ds /\ ds <> []
             /\ horner (digit_values ds) = - n.
Proof.
  intros Hn. destruct (decimal_text_nonneg (- n) ltac:(lia)) as (Hd & Hne & Hv).
  exists (decimal_text (- n)). repeat split; try assumption.
  unfold decimal_text.
  replace (n <? 0) with true by (symmetry; apply Z.ltb_lt; lia).
  replace (- n <? 0) with false by (symmetry; apply Z.ltb_ge; lia).
  reflexivity.
Qed.

(** The ints that have a decimal text are those below the limit in
    absolute value. *)
Lemma digit_count_limit (n : Z) :
  digit_count n <= int_max_str_digits <-> Z.abs n < int_text_limit.
Proof.
  unfold digit_count, int_text_limit.
  apply decimal_text_length; [lia|]. unfold int_max_str_digits. lia.
Qed.

Lemma small_below_limit (n : Z) : Z.abs n < 100 -> Z.abs n < int_text_limit.
Proof.
  intros H. unfold int_text_limit.
  pose proof (Z.pow_le_mono_r 10 2 int_max_str_digits ltac:(lia)
                ltac:(unfold int_max_str_digits; lia)) as P.
  change (10 ^ 2) with 100 in P. lia.
Qed.

Lemma str_of_int_ok (n : Z) :
  Z.abs n < int_text_limit -> str_of_int n = Ok (decimal_text n).
Proof.
  intros H. apply digit_count_limit in H. unfold str_of_int.
  now replace (int_max_str_digits <? digit_count n) with false
    by (symmetry; apply Z.ltb_ge; lia).
Qed.

Lemma str_of_int_too_long (n : Z) :
  int_text_limit <= Z.abs n -> str_of_int n = Raise ValueError.
Proof.
  intros H. unfold str_of_int.
  destruct (int_max_str_digits <? digit_count n) eqn:E; [reflexivity|].
  apply Z.ltb_ge in E. apply digit_count_limit in E. lia.
Qed.

(** [f"{n:02d}"] gives the padded text of an int below the limit, and
    raises for the others. *)
Lemma format_02d_ok (n : Z) :
  Z.abs n < int_text_limit -> format_02d n = Ok (two_digits n).
Proof.
  intros H. unfold format_02d. now rewrite str_of_int_ok.
Qed.

Lemma format_02d_too_long (n : Z) :
  int_text_limit <= Z.abs n -> format_02d n = Raise ValueError.
Proof.
  intros H. unfold format_02d. now rewrite str_of_int_too_long.
Qed.

Lemma two_digits_nonneg (n : Z) :
  0 <= n ->
  Forall digit_char (two_digits n)
  /\ two_digits n <> []
  /\ horner (digit_values (two_digits n)) = n.
Proof.
  intros Hn. destruct (decimal_text_nonneg n Hn) as (Hd & Hne & Hv).
  unfold two_digits. destruct (length (decimal_text n) <? 2)%nat.
  - split; [constructor; [unfold digit_char; lia|assumption]|].
    split; [discriminate|]. exact Hv.
  - auto.
Qed.

Lemma two_digits_length_limit (n : Z) :
  0 <= n < int_text_limit ->
  Z.of_nat (length (two_digits n)) <= int_max_str_digits.
Proof.
  intros Hn.
  assert (H : Z.of_nat (length (decimal_text n)) <= int_max_str_digits).
  { apply decimal_text_length; [lia|unfold int_max_str_digits; lia|].
    apply Hn. }
  unfold two_digits. destruct (length (decimal_text n) <? 2)%nat eqn:E; [|exact H].
  apply Nat.ltb_lt in E. cbn [length]. unfold int_max_str_digits. lia.
Qed.

Lemma to_ascii_digit_chars (s : pystr) :
  Forall digit_char s -> map to_ascii s = s.
Proof.
  induction 1 as [|c s Hc Hs IH]; [reflexivity|].
  simpl. rewrite IH. f_equal. unfold to_ascii, digit_char in *.
  destruct (c <? 127) eqn:E; [reflexivity|]. apply Z.ltb_ge in E. lia.
Qed.

Lemma is_ascii_digit_true (c : char) : digit_char c -> is_ascii_digit c = true.
Proof.
  unfold digit_char, is_ascii_digit. intros H.
  apply andb_true_intro. split; apply Z.leb_le; lia.
Qed.

Lemma digitpart_rest_digit_chars (s : pystr) :
  Forall digit_char s -> digitpart_rest s = (digit_values s, []).
Proof.
  induction 1 as [|c s Hc Hs IH]; [reflexivity|].
  cbn [digitpart_rest]. now rewrite (is_ascii_digit_true c Hc), IH.
Qed.

Lemma length_digit_values (s : pystr) : length (digit_values s) = length s.
Proof. apply length_map. Qed.

(** [int] on a text made of ASCII digits: the number they write, or a
    [ValueError] when there are more of them than the limit allows. *)
Lemma int_of_digit_chars_cases (s : pystr) :
  Forall digit_char s -> s <> [] ->
  int_of_str s
  = if int_max_str_digits <? Z.of_nat (length s) then Raise ValueError
    else Ok (horner (digit_values s)).
Proof.
  intros Hs Hne. unfold int_of_str. rewrite (to_ascii_digit_chars s Hs).
  destruct s as [|c s]; [contradiction|].
  inversion Hs as [|? ? Hc Hs']; subst.
  pose proof (is_ascii_digit_true c Hc) as E. unfold digit_char in Hc.
  assert (Esp : ascii_isspace c = false).
  { unfold ascii_isspace. apply orb_false_intro.
    - apply andb_false_intro2. apply Z.leb_gt. lia.
    - apply Z.eqb_neq. lia. }
  cbn [dropwhile]. rewrite Esp. unfold sign_of.
  replace (c =? 45) with false by (symmetry; apply Z.eqb_neq; lia).
  replace (c =? 43) with false by (symmetry; apply Z.eqb_neq; lia).
  unfold digitpart. rewrite E, (digitpart_rest_digit_chars s Hs').
  cbn [dropwhile].
  change (c - 48 :: digit_values s) with (digit_values (c :: s)).
  rewrite length_digit_values. reflexivity.
Qed.

Lemma int_of_digit_chars (s : pystr) :
  Forall digit_char s -> s <> [] ->
  Z.of_nat (length s) <= int_max_str_digits ->
  int_of_str s = Ok (horner (digit_values s)).
Proof.
  intros Hs Hne Hlen. rewrite int_of_digit_chars_cases by assumption.
  destruct (int_max_str_digits <? _) eqn:El; [apply Z.ltb_lt in El; lia|].
  reflexivity.
Qed.

Lemma int_of_digit_chars_too_long (s : pystr) :
  Forall digit_char s -> s <> [] ->
  int_max_str_digits < Z.of_nat (length s) ->
  int_of_str s = Raise ValueError.
Proof.
  intros Hs Hne Hlen. rewrite int_of_digit_chars_cases by assumption.
  destruct (int_max_str_digits <? _) eqn:El; [reflexivity|].
  apply Z.ltb_ge in El. lia.
Qed.

(** [int] refuses the padded text of an int at or above the limit. *)
Lemma int_of_two_digits_too_long (n : Z) :
  int_text_limit <= n -> int_of_str (two_digits n) = Raise ValueError.
Proof.
  intros Hlim.
  assert (Hn : 0 <= n).
  { pose proof (Z.pow_nonneg 10 int_max_str_digits ltac:(lia)) as P.
    fold int_text_limit in P. lia. }
  destruct (two_digits_nonneg n Hn) as (Hd & Hne & _).
  apply int_of_digit_chars_too_long; try assumption.
  assert (H : int_max_str_digits < Z.of_nat (length (decimal_text n))).
  { apply Z.nle_gt. intros H.
    apply decimal_text_length in H; [|lia|unfold int_max_str_digits; lia].
    fold int_text_limit in H. lia. }
  unfold two_digits.
  destruct (length (decimal_text n) <? 2)%nat; [|exact H].
  cbn [length]. lia.
Qed.

(** [int] reads back the padded text of every int below the limit. *)
Lemma int_of_two_digits (n : Z) :
  Z.abs n < int_text_limit -> int_of_str (two_digits n) = Ok n.
Proof.
  intros Hlim. destruct (Z.lt_ge_cases n 0) as [Hn|Hn].
  - destruct (decimal_text_negative n Hn) as (ds & E & Eds & Hd & Hne & Hv).
    assert (Hlen : Z.of_nat (length ds) <= int_max_str_digits).
    { rewrite Eds. apply decimal_text_length;
        [lia|unfold int_max_str_digits; lia|].
      fold int_text_limit. lia. }
    unfold two_digits. rewrite E.
    destruct ds as [|d ds]; [contradiction|]. cbn [length Nat.ltb Nat.leb].
    unfold int_of_str.
    change (map to_ascii (45 :: d :: ds)) with (45 :: map to_ascii (d :: ds)).
    rewrite (to_ascii_digit_chars _ Hd).
    change (dropwhile ascii_isspace (45 :: d :: ds)) with (45 :: d :: ds).
    change (sign_of (45 :: d :: ds)) with (true, d :: ds).
    unfold digitpart. inversion Hd as [|? ? Hd1 Hd2]; subst.
    rewrite (is_ascii_digit_true d Hd1), (digitpart_rest_digit_chars ds Hd2).
    cbn [dropwhile apply_sign].
    change (d - 48 :: digit_values ds) with (digit_values (d :: ds)).
    rewrite length_digit_values.
    destruct (int_max_str_digits <? _) eqn:El.
    { apply Z.ltb_lt in El. exfalso. revert El. apply Z.le_ngt. exact Hlen. }
    f_equal. lia.
  - destruct (two_digits_nonneg n Hn) as (Hd & Hne & Hv).
    rewrite int_of_digit_chars, Hv; try assumption; [reflexivity|].
    apply two_digits_length_limit. lia.
Qed.

Lemma two_digits_no_colon (n : Z) : Forall (fun x => x <> 58) (two_digits n).
Proof.
  destruct (Z.lt_ge_cases n 0) as [Hn|Hn].
  - destruct (decimal_text_negative n Hn) as (ds & E & _ & Hd & Hne & _).
    unfold two_digits. rewrite E.
    destruct ds as [|d ds]; [contradiction|]. cbn [length Nat.ltb Nat.leb].
    constructor; [lia|].
    eapply Forall_impl; [|exact Hd]. unfold digit_char. intros; lia.
  - destruct (two_digits_nonneg n Hn) as (Hd & _).
    eapply Forall_impl; [|exact Hd]. unfold digit_char. intros; lia.
Qed.

Lemma seconds_fields_ok : forallb seconds_field_ok (seq 0 60) = true.
Proof. vm_compute. reflexivity. Qed.

Lemma float_of_seconds_field (s : Z) :
  0 <= s <= 59 ->
  (x <- float_of_str (two_digits s) ;; int_of_float x) = Ok s.
Proof.
  intros Hs. pose proof seconds_fields_ok as H.
  rewrite forallb_forall in H. specialize (H (Z.to_nat s)).
  unfold seconds_field_ok in H. rewrite Z2Nat.id in H by lia.
  destruct (x <- float_of_str (two_digits s) ;; int_of_float x) as [v|e].
  - f_equal. apply Z.eqb_eq. apply H. apply in_seq. lia.
  - discriminate H. apply in_seq. lia.
Qed.

Lemma hms_div_mod (h m s : Z) :
  0 <= m <= 59 -> 0 <= s <= 59 ->
  let n := h * 3600 + m * 60 + s in
  n / 3600 = h /\ (n mod 3600) / 60 = m /\ n mod 60 = s.
Proof.
  intros Hm Hs n. subst n.
  assert (E1 : (h * 3600 + m * 60 + s) / 3600 = h).
  { symmetry. apply Z.div_unique with (r := m * 60 + s); lia. }
  assert (E2 : (h * 3600 + m * 60 + s) mod 3600 = m * 60 + s).
  { symmetry. apply Z.mod_unique with (q := h); lia. }
  rewrite E1, E2. repeat split.
  - symmetry. apply Z.div_unique with (r := s); lia.
  - symmetry. apply Z.mod_unique with (q := h * 60 + m); lia.
Qed.

(** ** The time helpers *)

(** Hours and minutes of any value below the limit are read back; nothing
    checks their range. *)
Lemma time_to_seconds_fields (h m s : Z) :
  Z.abs h < int_text_limit -> Z.abs m < int_text_limit -> 0 <= s <= 59 ->
  time_to_seconds (hhmmss h m s) = Ok (Some (h * 3600 + m * 60 + s)).
Proof.
  intros Hh Hm Hs. unfold time_to_seconds, time_to_seconds_body, split, hhmmss.
  change (u ":") with [58].
  change ([58] ++ two_digits m ++ [58] ++ two_digits s)
    with (58 :: two_digits m ++ 58 :: two_digits s).
  rewrite split_pieces_char by apply two_digits_no_colon.
  rewrite split_pieces_char by apply two_digits_no_colon.
  rewrite split_pieces_last by apply two_digits_no_colon.
  cbn [bind getitem nth_error length Nat.leb].
  rewrite !int_of_two_digits by assumption. cbn [bind].
  rewrite (float_of_seconds_field s Hs). reflexivity.
Qed.

(** The text of a number of seconds whose hours are below the limit. *)
Lemma seconds_to_time_str_ok (n : Z) :
  Z.abs (n / 3600) < int_text_limit ->
  seconds_to_time_str n
  = Ok (hhmmss (n / 3600) ((n mod 3600) / 60) (n mod 60)).
Proof.
  intros Hh. unfold seconds_to_time_str, hhmmss. cbv zeta.
  pose proof (Z.mod_pos_bound n 3600 ltac:(lia)) as B1.
  pose proof (Z.mod_pos_bound n 60 ltac:(lia)) as B2.
  assert (0 <= (n mod 3600) / 60) by (apply Z.div_pos; lia).
  assert ((n mod 3600) / 60 < 60) by (apply Z.div_lt_upper_bound; lia).
  rewrite !format_02d_ok by (assumption || (apply small_below_limit; lia)).
  reflexivity.
Qed.

Lemma seconds_to_time_str_too_long (n : Z) :
  int_text_limit <= Z.abs (n / 3600) ->
  seconds_to_time_str n = Raise ValueError.
Proof.
  intros Hh. unfold seconds_to_time_str. cbv zeta.
  now rewrite format_02d_too_long.
Qed.

(** A text whose hours field is at or above the limit is not read: [int]
    refuses the field and the handler answers null. *)
Lemma time_to_seconds_hours_too_long (h m s : Z) :
  int_text_limit <= h -> time_to_seconds (hhmmss h m s) = Ok None.
Proof.
  intros Hh. unfold time_to_seconds, time_to_seconds_body, split, hhmmss.
  change (u ":") with [58].
  change ([58] ++ two_digits m ++ [58] ++ two_digits s)
    with (58 :: two_digits m ++ 58 :: two_digits s).
  rewrite split_pieces_char by apply two_digits_no_colon.
  rewrite split_pieces_char by apply two_digits_no_colon.
  rewrite split_pieces_last by apply two_digits_no_colon.
  cbn [bind getitem nth_error length Nat.leb].
  rewrite (int_of_two_digits_too_long h Hh). reflexivity.
Qed.

(** C6, as the claim states it, fails for hours without bound: the text
    of an hours field of 4301 digits (two zero fields after it) is of the
    form HH:MM:SS, but [int] refuses its first field with a [ValueError],
    which the handler turns into null. *)
Lemma C6_huge_hours_not_read :
  0 <= 10 ^ 4300
  /\ time_to_seconds (hhmmss (10 ^ 4300) 0 0) = Ok None
  /\ forall n, time_to_seconds (hhmmss (10 ^ 4300) 0 0) <> Ok (Some n).
Proof.
  assert (E : time_to_seconds (hhmmss (10 ^ 4300) 0 0) = Ok None)
    by (apply time_to_seconds_hours_too_long; apply Z.le_refl).
  split; [apply Z.pow_nonneg; lia|]. split; [exact E|].
  intros n. rewrite E. discriminate.
Qed.

(** C6, amended. For every canonical time text [HH:MM:SS] (two-digit
    zero-padded fields, minutes and seconds in 0..59, hours from 0 up to
    the largest int of 4300 digits, the interpreter's limit for decimal
    text), [time_to_seconds] gives the number of seconds and
    [seconds_to_time_str] gives the text back; ["09:05:30"] is 32730
    seconds and 32730 seconds is ["09:05:30"]. *)
Theorem C6_time_round_trip (h m s : Z) :
  0 <= h < int_text_limit -> 0 <= m <= 59 -> 0 <= s <= 59 ->
  (exists n, time_to_seconds (hhmmss h m s) = Ok (Some n)
             /\ seconds_to_time_str n = Ok (hhmmss h m s))
  /\ time_to_seconds (u "09:05:30") = Ok (Some 32730)
  /\ seconds_to_time_str 32730 = Ok (u "09:05:30").
Proof.
  intros Hh Hm Hs. split; [|split; vm_compute; reflexivity].
  exists (h * 3600 + m * 60 + s). split.
  - apply time_to_seconds_fields; try assumption; [lia|].
    apply small_below_limit. lia.
  - destruct (hms_div_mod h m s Hm Hs) as (E1 & E2 & E3).
    rewrite seconds_to_time_str_ok; rewrite E1; [|lia].
    now rewrite E2, E3.
Qed.

Lemma C6_time_round_trip_witness :
  (exists n, time_to_seconds (hhmmss 123 7 59) = Ok (Some n)
             /\ seconds_to_time_str n = Ok (hhmmss 123 7 59))
  /\ time_to_seconds (u "09:05:30") = Ok (Some 32730)
  /\ seconds_to_time_str 32730 = Ok (u "09:05:30").
Proof.
  apply (C6_time_round_trip 123 7 59); try lia.
  split; [lia|reflexivity].
Defined.

(** C8. [time_to_seconds] never raises: on every text it returns what the
    description says, the number of seconds when the text splits on [':']
    into at least two parts that parse (hours and minutes as ints, a
    third part, if there is one, as a float that is then truncated, 0
    without it), and null otherwise; a fractional seconds part is
    truncated and a text with a single part gives null. *)
Theorem C8_time_to_seconds_total (text : pystr) :
  time_to_seconds text = Ok (spec_time_to_seconds text)
  /\ time_to_seconds (u "1:2:3.9") = Ok (Some 3723)
  /\ time_to_seconds (u "9:5") = Ok (Some 32700)
  /\ time_to_seconds (u "0905") = Ok None
  /\ time_to_seconds (u "1:2:x") = Ok None.
Proof.
  split; [|repeat split; vm_compute; reflexivity].
  unfold time_to_seconds, time_to_seconds_body, spec_time_to_seconds, split.
  change (u ":") with [58].
  destruct (split_pieces (length text) [58] text) as [|hh [|mm rest]];
    cbn [bind getitem nth_error try_except any_exception]; try reflexivity.
  - destruct (int_of_str hh); reflexivity.
  - destruct (int_of_str hh) as [h|]; cbn [bind try_except any_exception to_option];
      [|reflexivity].
    destruct (int_of_str mm) as [m|]; cbn [bind try_except any_exception to_option];
      [|reflexivity].
    destruct rest as [|ss rest]; cbn [length Nat.leb bind getitem nth_error];
      [reflexivity|].
    destruct (float_of_str ss) as [x|]; cbn [bind try_except any_exception to_option];
      [|reflexivity].
    destruct (int_of_float x); reflexivity.
Qed.

(** ** The locator *)

Ltac break_match :=
  repeat match goal with
         | |- context [match ?x with _ => _ end] => destruct x
         end.

(** [float(text)] fails with [ValueError] only. *)
Lemma float_of_str_raises (s : pystr) (e : exn) :
  float_of_str s = Raise e -> e = ValueError.
Proof.
  unfold float_of_str, floatnumber. break_match; congruence.
Qed.

(** Whatever the extraction raises, the handler of the loop body takes. *)
Lemma extraction_errors_caught (cell_value v : pystr) (e : exn) :
  (rs <- rating_str cell_value v ;; float_of_str rs) = Raise e ->
  index_or_value_error e = true.
Proof.
  unfold rating_str, split, getitem, bind.
  destruct v as [|c v]; [intros [= <-]; reflexivity|].
  match goal with
  | |- context [nth_error ?l 1%nat] => destruct (nth_error l 1%nat) as [tail|]
  end; [|intros [= <-]; reflexivity].
  change (u "(") with [40]. cbv beta iota.
  match goal with
  | |- context [nth_error ?l 0%nat] => destruct (nth_error l 0%nat) as [head|]
  end; [|intros [= <-]; reflexivity].
  intros H. apply float_of_str_raises in H. now subst e.
Qed.

(** Inside the frame the loop body is the rating of the cell. *)
Lemma inspect_cell_in_bounds (sheet : DataFrame cell) (v : pystr)
    (col row : nat) :
  (row < nrows sheet)%nat -> (col < ncols sheet)%nat ->
  inspect_cell (fillna_astype_str sheet) v col row
  = Ok (rating_at sheet (v, col, row)).
Proof.
  intros Hr Hc.
  unfold inspect_cell, iloc, rating_at, cell_rating, parsed_rating, is_candidate.
  cbn [nrows ncols fillna_astype_str].
  apply Nat.ltb_lt in Hr, Hc. rewrite Hr, Hc. cbn [andb bind].
  fold (text_at sheet row col).
  set (cell_value := strip (text_at sheet row col)).
  destruct (negb (length cell_value =? 0)%nat && contains v cell_value);
    [|reflexivity].
  cbn [andb]. destruct (any_isdigit cell_value); [|reflexivity].
  destruct (rs <- rating_str cell_value v ;; float_of_str rs) as [x|e] eqn:E.
  - unfold bind in *. destruct (rating_str cell_value v) as [rs|]; [|discriminate].
    rewrite E. reflexivity.
  - pose proof (extraction_errors_caught _ _ _ E) as Hc'.
    unfold bind in *. destruct (rating_str cell_value v) as [rs|e'].
    + rewrite E. cbn. now rewrite Hc'.
    + injection E as ->. cbn. now rewrite Hc'.
Qed.

Lemma first_some_app {A R : Type} (g : A -> option R) (xs ys : list A) :
  first_some g (xs ++ ys) =
  match first_some g xs with
  | Some r => Some r
  | None => first_some g ys
  end.
Proof.
  induction xs as [|x xs IH]; simpl; [reflexivity|].
  destruct (g x); auto.
Qed.

(** A loop whose body computes [g] on the image of its variable returns
    the first answer of [g]. *)
Lemma for_each_map {A B R : Type} (xs : list A)
    (body : A -> result (option R)) (h : A -> B) (g : B -> option R) :
  (forall x, In x xs -> body x = Ok (g (h x))) ->
  for_each xs body = Ok (first_some g (map h xs)).
Proof.
  induction xs as [|x xs IH]; intros H; simpl; [reflexivity|].
  rewrite (H x (or_introl eq_refl)).
  destruct (g (h x)); [reflexivity|].
  apply IH. intros y Hy. apply H. now right.
Qed.

(** A loop over loops is one loop over the positions laid end to end. *)
Lemma for_each_flat_map {A B R : Type} (xs : list A)
    (body : A -> result (option R)) (f : A -> list B) (g : B -> option R) :
  (forall x, In x xs -> body x = Ok (first_some g (f x))) ->
  for_each xs body = Ok (first_some g (flat_map f xs)).
Proof.
  induction xs as [|x xs IH]; intros H; simpl; [reflexivity|].
  rewrite (H x (or_introl eq_refl)), first_some_app.
  destruct (first_some g (f x)); [reflexivity|].
  apply IH. intros y Hy. apply H. now right.
Qed.

(** The three loops are the scan in [scan_order], on every frame in which
    the columns 1 to 4 exist (or that has no row to look at). *)
Lemma locate_refines (sheet : DataFrame cell) (names : list pystr) :
  (5 <= ncols sheet)%nat \/ nrows sheet = O ->
  find_program_data_improved sheet names = Ok (spec_locate sheet names).
Proof.
  intros Hshape. unfold find_program_data_improved, spec_locate, scan_order.
  cbn [nrows fillna_astype_str].
  rewrite (for_each_flat_map names _
             (fun v => flat_map
                (fun col => map (fun row => (v, col, row))
                              (range 0 (nrows sheet))) [1; 2; 3; 4]%nat)
             (rating_at sheet)).
  - cbn [bind]. destruct (first_some _ _) as [[[x row] col]|]; reflexivity.
  - intros v _.
    apply (for_each_flat_map (range 1 5) _
             (fun col => map (fun row => (v, col, row)) (range 0 (nrows sheet)))).
    intros col Hcol. apply in_range_iff in Hcol.
    apply for_each_map. intros row Hrow. apply in_range_iff in Hrow.
    apply inspect_cell_in_bounds; lia.
Qed.

(** On a frame with rows and fewer than five columns the scan runs off
    the frame, unless it returns first. *)
Lemma narrow_frame_raises (sheet : DataFrame cell) (v : pystr)
    (names : list pystr) :
  (0 < nrows sheet)%nat -> (ncols sheet <= 1)%nat ->
  find_program_data_improved sheet (v :: names) = Raise IndexError.
Proof.
  intros Hr Hc. unfold find_program_data_improved.
  cbn [nrows fillna_astype_str]. change (range 1 5) with [1; 2; 3; 4]%nat.
  rewrite (range_cons 0 (nrows sheet)) by lia. cbn [for_each].
  unfold inspect_cell at 1, iloc. cbn [nrows ncols fillna_astype_str].
  replace (1 <? ncols sheet)%nat with false
    by (symmetry; apply Nat.ltb_ge; lia).
  rewrite andb_false_r. reflexivity.
Qed.

Lemma not_candidate_no_rating (text v : pystr) :
  is_candidate (strip text) v = false -> cell_rating text v = None.
Proof. intros H. unfold cell_rating. cbv zeta. now rewrite H. Qed.

(** The scan for the first variant returns at the first position whose
    cell yields a rating. *)
Lemma locate_first_variant (sheet : DataFrame cell) (v : pystr)
    (names : list pystr) (row0 col0 : nat) (x : pyfloat) :
  (row0 < nrows sheet)%nat -> (1 <= col0 <= 4)%nat ->
  (col0 < ncols sheet)%nat ->
  (forall row col, scanned_before sheet row0 col0 row col ->
                   cell_rating (text_at sheet row col) v = None) ->
  cell_rating (text_at sheet row0 col0) v = Some x ->
  find_program_data_improved sheet (v :: names)
  = Ok (Some x, Some row0, Some col0).
Proof.
  intros Hrow Hcol Hin Hbefore Hat. unfold find_program_data_improved.
  cbn [nrows fillna_astype_str for_each].
  rewrite (for_each_range_first 1 5 col0 _ (x, row0, col0)); [reflexivity|lia| |].
  - intros col Hc. apply for_each_all_none. intros row Hr.
    apply in_range_iff in Hr.
    rewrite inspect_cell_in_bounds by lia. unfold rating_at.
    rewrite Hbefore; [reflexivity|]. left. lia.
  - apply (for_each_range_first 0 (nrows sheet) row0); [lia| |].
    + intros row Hr. rewrite inspect_cell_in_bounds by lia. unfold rating_at.
      rewrite Hbefore; [reflexivity|]. right. lia.
    + rewrite inspect_cell_in_bounds by lia. unfold rating_at. now rewrite Hat.
Qed.

Lemma text_at_value (sheet : DataFrame cell) (row col : nat) (t : pystr) :
  cell_at sheet row col = Value t -> text_at sheet row col = t.
Proof. intros H. unfold text_at. cbn [cell_at fillna_astype_str]. now rewrite H. Qed.

Lemma rating_12_3_nearest : nearest_double 123 10 rating_12_3.
Proof.
  unfold nearest_double. cbv iota beta delta [rating_12_3 rating_8_1].
  split; [reflexivity|]. split; [lia|]. vm_compute. discriminate.
Qed.

Lemma rating_8_1_nearest : nearest_double 81 10 rating_8_1.
Proof.
  unfold nearest_double. cbv iota beta delta [rating_12_3 rating_8_1].
  split; [reflexivity|]. split; [lia|]. vm_compute. discriminate.
Qed.

(** C1, as the claim states it, fails: in the frame whose only cell is
    ["뉴스A 12.3% (최종)"] at row 3, column 2, the text cut out of the cell
    is ["12.3%"], which is not a float, so the cell is passed over and the
    locator returns three nulls. *)
Lemma C1_percent_cell_not_located :
  cell_at percent_sheet 3 2 = Value (u "뉴스A 12.3% (최종)")
  /\ rating_str (u "뉴스A 12.3% (최종)") (u "뉴스A") = Ok (u "12.3%")
  /\ float_of_str (u "12.3%") = Raise ValueError
  /\ find_program_data_improved percent_sheet news_a_names
     = Ok (None, None, None)
  /\ find_program_data_improved percent_sheet news_a_names
     <> Ok (Some rating_12_3, Some 3%nat, Some 2%nat).
Proof. repeat split; try (vm_compute; reflexivity). vm_compute. discriminate. Qed.

(** C1, amended. For a frame in which the cell at row 3, column 2 has the
    text ["뉴스A 12.3 (최종)"] (the rating followed by the parenthesised
    note, without a percent sign) and no cell scanned earlier is a
    candidate for ["뉴스A"], the locator returns rating 12.3, row 3,
    column 2. *)
Theorem C1_locate_annotated_cell (sheet : DataFrame cell) :
  (3 < nrows sheet)%nat -> (2 < ncols sheet)%nat ->
  cell_at sheet 3 2 = Value (u "뉴스A 12.3 (최종)") ->
  (forall row col, scanned_before sheet 3 2 row col ->
     is_candidate (strip (text_at sheet row col)) (u "뉴스A") = false) ->
  find_program_data_improved sheet news_a_names
  = Ok (Some rating_12_3, Some 3%nat, Some 2%nat)
  /\ nearest_double 123 10 rating_12_3.
Proof.
  intros Hr Hc Hcell Hbefore. split; [|exact rating_12_3_nearest].
  apply locate_first_variant; try lia.
  - intros row col H. apply not_candidate_no_rating. now apply Hbefore.
  - rewrite (text_at_value _ _ _ _ Hcell). vm_compute. reflexivity.
Qed.

Lemma C1_locate_annotated_cell_witness :
  find_program_data_improved annotated_sheet news_a_names
  = Ok (Some rating_12_3, Some 3%nat, Some 2%nat)
  /\ nearest_double 123 10 rating_12_3.
Proof.
  apply (C1_locate_annotated_cell annotated_sheet).
  - simpl. lia.
  - simpl. lia.
  - reflexivity.
  - intros row col [[Hc Hr] | [Hc Hr]].
    + assert (col = 1%nat) by lia. subst col. simpl in Hr.
      do 4 (destruct row as [|row]; [reflexivity|]). lia.
    + subst col. do 3 (destruct row as [|row]; [reflexivity|]). lia.
Defined.

(** C3, as the claim states it, fails on a frame that has rows but fewer
    than five columns: the scan reads column 3 of a three-column frame and
    the locator raises [IndexError], returning neither a match nor the
    three nulls. *)
Lemma C3_narrow_frame_raises :
  nrows three_column_sheet = 1%nat /\ ncols three_column_sheet = 3%nat
  /\ find_program_data_improved three_column_sheet news_a_names
     = Raise IndexError
  /\ forall r, find_program_data_improved three_column_sheet news_a_names
               <> Ok r.
Proof.
  assert (E : find_program_data_improved three_column_sheet news_a_names
              = Raise IndexError) by (vm_compute; reflexivity).
  repeat split; try assumption. intros r. rewrite E. discriminate.
Qed.

(** C3, amended. For every frame in which columns 1 to 4 exist (at least
    five columns; or no row at all) and every variant list, the locator
    scans the variants in list order, for each the columns 1 to 4 in order
    and in each column the rows from the top; a cell is a candidate when
    it is non-empty, contains the variant and contains a digit; the
    locator returns (rating, row, col) at the first candidate whose
    extracted rating parses, and three nulls when the scan is exhausted. *)
Theorem C3_locate_scan (sheet : DataFrame cell) (names : list pystr) :
  (5 <= ncols sheet)%nat \/ nrows sheet = O ->
  find_program_data_improved sheet names = Ok (spec_locate sheet names).
Proof. apply locate_refines. Qed.

Lemma C3_locate_scan_witness :
  find_program_data_improved annotated_sheet news_a_names
  = Ok (spec_locate annotated_sheet news_a_names).
Proof. apply (C3_locate_scan annotated_sheet news_a_names). left. simpl. lia. Defined.

(** ** Dates *)

Lemma date_table_ok :
  forallb (fun y => forallb (fun m => forallb (date_case_ok y m) (seq 1 31))
                      (seq 1 12)) (seq 0 100) = true.
Proof. vm_compute. reflexivity. Qed.

Lemma days_in_month_le_31 (y m : Z) : days_in_month y m <= 31.
Proof.
  unfold days_in_month. destruct ((m =? 2) && is_leap y); [lia|].
  destruct (Z.to_nat m) as [|[|[|[|[|[|[|[|[|[|[|[|[|k]]]]]]]]]]]]];
    cbn [nth]; try lia.
  destruct k; cbn [nth]; lia.
Qed.

(** Every well-formed date text is parsed to the date it writes, the year
    by the two-digit convention, and the weekend test agrees with the
    calendar. *)
Lemma strptime_valid (y m d : Z) :
  valid_yymmdd y m d ->
  strptime_yymmdd (yymmdd y m d) = Ok (mkdate (full_year y) m d)
  /\ is_weekend_date (mkdate (full_year y) m d)
     = saturday_or_sunday (full_year y) m d.
Proof.
  intros (Hy & Hm & Hd).
  pose proof (days_in_month_le_31 (full_year y) m) as H31.
  pose proof date_table_ok as T.
  rewrite forallb_forall in T.
  specialize (T (Z.to_nat y) ltac:(apply in_seq; lia)).
  rewrite forallb_forall in T.
  specialize (T (Z.to_nat m) ltac:(apply in_seq; lia)).
  rewrite forallb_forall in T.
  specialize (T (Z.to_nat d) ltac:(apply in_seq; lia)).
  unfold date_case_ok in T. cbv zeta in T.
  rewrite !Z2Nat.id in T by lia.
  replace (d <=? days_in_month (full_year y) m) with true in T
    by (symmetry; apply Z.leb_le; lia).
  destruct (strptime_yymmdd (yymmdd y m d)) as [[yy mm dd]|]; [|discriminate].
  cbn [year month day] in T.
  repeat (apply andb_prop in T; destruct T as [T ?]).
  apply Z.eqb_eq in T. repeat match goal with
                              | H : (_ =? _) = true |- _ => apply Z.eqb_eq in H
                              end.
  subst. split; [reflexivity|]. now apply Bool.eqb_prop.
Qed.

(** ** The aggregator *)

Lemma programs_table (weekend : bool) :
  programs weekend
  = map (fun k => (key_text k, resolve_variants k weekend))
      [news_a; jtbc; mbn; tv_chosun].
Proof. destruct weekend; reflexivity. Qed.

(** The loop over the roster sets one record per key. *)
Lemma collect_ratings_spec (sheet_paid sheet_2049 : DataFrame cell)
    (weekend : bool) (keys : list ProgramKey) :
  scan_fits sheet_paid -> scan_fits sheet_2049 ->
  forall ratings,
  collect_ratings sheet_paid sheet_2049
    (map (fun k => (key_text k, resolve_variants k weekend)) keys) ratings
  = Ok (fold_left
          (fun acc k =>
             dict_set acc (key_text k)
               (spec_record sheet_paid sheet_2049 weekend k))
          keys ratings).
Proof.
  intros Hp Hq. induction keys as [|k keys IH]; intros ratings; [reflexivity|].
  cbn [map collect_ratings fold_left].
  rewrite (locate_refines sheet_paid _ Hp), (locate_refines sheet_2049 _ Hq).
  cbn [bind]. unfold spec_record, rating_of.
  destruct (spec_locate sheet_paid (resolve_variants k weekend)) as [[a ?] ?].
  destruct (spec_locate sheet_2049 (resolve_variants k weekend)) as [[b ?] ?].
  cbn [fst getitem nth_error resolve_variants bind]. apply IH.
Qed.

Lemma get_program_ratings_spec (sheet_paid sheet_2049 : DataFrame cell)
    (y m d : Z) :
  scan_fits sheet_paid -> scan_fits sheet_2049 -> valid_yymmdd y m d ->
  get_program_ratings sheet_paid sheet_2049 (yymmdd y m d)
  = Ok (spec_ratings sheet_paid sheet_2049
          (saturday_or_sunday (full_year y) m d)).
Proof.
  intros Hp Hq Hd. unfold get_program_ratings.
  destruct (strptime_valid y m d Hd) as [-> E]. cbn [bind]. rewrite E.
  rewrite programs_table, collect_ratings_spec by assumption.
  destruct (saturday_or_sunday (full_year y) m d); reflexivity.
Qed.

(** C4, as the claim states it, fails on a frame that has rows but not
    the columns 1 to 4: the first locator call raises [IndexError] and no
    mapping is returned, for a well-formed date. *)
Lemma C4_narrow_frame_no_mapping :
  valid_yymmdd 24 1 1 /\ yymmdd 24 1 1 = u "240101"
  /\ get_program_ratings one_column_sheet one_column_sheet (u "240101")
     = Raise IndexError.
Proof.
  split; [|split; vm_compute; reflexivity].
  unfold valid_yymmdd. repeat split; try lia. vm_compute. discriminate.
Qed.

(** C4, amended. For every pair of frames in which the columns 1 to 4
    exist (or that have no rows) and every well-formed date text, the
    aggregator returns a mapping with one entry for each of the keys
    news_a, jtbc, mbn, tv_chosun, in this order; the name of an entry is
    the normal (first) variant for the day type, whichever variant matched,
    and each rating is what the locator finds in that frame, null when it
    finds nothing. *)
Theorem C4_ratings_roster (sheet_paid sheet_2049 : DataFrame cell)
    (y m d : Z) :
  scan_fits sheet_paid -> scan_fits sheet_2049 -> valid_yymmdd y m d ->
  let weekend := saturday_or_sunday (full_year y) m d in
  exists ratings,
    get_program_ratings sheet_paid sheet_2049 (yymmdd y m d) = Ok ratings
    /\ map fst ratings = [u "news_a"; u "jtbc"; u "mbn"; u "tv_chosun"]
    /\ forall k,
         exists r,
           dict_get ratings (key_text k) = Some r
           /\ name r = normal_name k weekend
           /\ Some (name r) = hd_error (resolve_variants k weekend)
           /\ find_program_data_improved sheet_paid (resolve_variants k weekend)
              = Ok (spec_locate sheet_paid (resolve_variants k weekend))
           /\ paid r
              = rating_of (spec_locate sheet_paid (resolve_variants k weekend))
           /\ rating_2049 r
              = rating_of (spec_locate sheet_2049 (resolve_variants k weekend))
           /\ (first_some (rating_at sheet_paid)
                 (scan_order (resolve_variants k weekend) (nrows sheet_paid))
               = None -> paid r = None)
           /\ (first_some (rating_at sheet_2049)
                 (scan_order (resolve_variants k weekend) (nrows sheet_2049))
               = None -> rating_2049 r = None).
Proof.
  intros Hp Hq Hd weekend.
  exists (spec_ratings sheet_paid sheet_2049 weekend).
  split; [now apply get_program_ratings_spec|].
  split; [reflexivity|].
  intros k. exists (spec_record sheet_paid sheet_2049 weekend k).
  split; [destruct k; reflexivity|].
  split; [reflexivity|]. split; [reflexivity|].
  split; [now apply locate_refines|].
  split; [reflexivity|]. split; [reflexivity|].
  unfold spec_record, spec_locate, rating_of. cbn [paid rating_2049].
  split; intros ->; reflexivity.
Qed.

Lemma valid_240106 : valid_yymmdd 24 1 6.
Proof. unfold valid_yymmdd. repeat split; try lia. vm_compute. discriminate. Qed.

Lemma C4_ratings_roster_witness :
  let weekend := saturday_or_sunday (full_year 24) 1 6 in
  exists ratings,
    get_program_ratings annotated_sheet mbn_sheet (yymmdd 24 1 6) = Ok ratings
    /\ map fst ratings = [u "news_a"; u "jtbc"; u "mbn"; u "tv_chosun"]
    /\ forall k,
         exists r,
           dict_get ratings (key_text k) = Some r
           /\ name r = normal_name k weekend
           /\ Some (name r) = hd_error (resolve_variants k weekend)
           /\ find_program_data_improved annotated_sheet (resolve_variants k weekend)
              = Ok (spec_locate annotated_sheet (resolve_variants k weekend))
           /\ paid r
              = rating_of (spec_locate annotated_sheet (resolve_variants k weekend))
           /\ rating_2049 r
              = rating_of (spec_locate mbn_sheet (resolve_variants k weekend))
           /\ (first_some (rating_at annotated_sheet)
                 (scan_order (resolve_variants k weekend) (nrows annotated_sheet))
               = None -> paid r = None)
           /\ (first_some (rating_at mbn_sheet)
                 (scan_order (resolve_variants k weekend) (nrows mbn_sheet))
               = None -> rating_2049 r = None).
Proof.
  apply (C4_ratings_roster annotated_sheet mbn_sheet 24 1 6).
  - left. simpl. lia.
  - left. simpl. lia.
  - exact valid_240106.
Defined.

(** ** The weekday and weekend names *)

Lemma blank_no_rating (sheet : DataFrame cell) (row col : nat) (v : pystr) :
  cell_at sheet row col = NaN -> cell_rating (text_at sheet row col) v = None.
Proof.
  intros H. unfold text_at. cbn [cell_at fillna_astype_str]. now rewrite H.
Qed.

Lemma first_some_none {A R : Type} (g : A -> option R) (xs : list A) :
  (forall x, In x xs -> g x = None) -> first_some g xs = None.
Proof.
  induction xs as [|x xs IH]; intros H; simpl; [reflexivity|].
  rewrite (H x (or_introl eq_refl)). apply IH. intros y Hy. apply H. now right.
Qed.

Lemma in_scan_order (names : list pystr) (n : nat) (v : pystr) (col row : nat) :
  In (v, col, row) (scan_order names n) ->
  In v names /\ (1 <= col <= 4)%nat /\ (row < n)%nat.
Proof.
  unfold scan_order. rewrite in_flat_map. intros (v' & Hv & H).
  rewrite in_flat_map in H. destruct H as (col' & Hc & H).
  rewrite in_map_iff in H. destruct H as (row' & [= -> -> ->] & Hr).
  apply in_range_iff in Hr. split; [assumption|]. split; [|lia].
  simpl in Hc. lia.
Qed.

(** In a frame whose only cell is ["MBN뉴스7 8.1"], the weekday names find
    it and the weekend names find nothing. *)
Lemma lone_mbn_cell (sheet : DataFrame cell) (row0 col0 : nat) :
  (5 <= ncols sheet)%nat -> (row0 < nrows sheet)%nat -> (1 <= col0 <= 4)%nat ->
  only_cell sheet row0 col0 (u "MBN뉴스7 8.1") ->
  spec_locate sheet mbn_weekday_names
  = (Some rating_8_1, Some row0, Some col0)
  /\ spec_locate sheet mbn_weekend_names = (None, None, None).
Proof.
  intros Hw Hr Hc [Hcell Hblank]. split.
  - assert (E : find_program_data_improved sheet mbn_weekday_names
                = Ok (Some rating_8_1, Some row0, Some col0)).
    { apply locate_first_variant; try lia.
      - intros row col [[? ?]|[? ?]]; apply blank_no_rating, Hblank; lia.
      - rewrite (text_at_value _ _ _ _ Hcell). vm_compute. reflexivity. }
    rewrite locate_refines in E by (left; lia). now injection E.
  - unfold spec_locate. rewrite first_some_none; [reflexivity|].
    intros [[v col] row] Hin. apply in_scan_order in Hin.
    destruct Hin as (Hv & _ & _). unfold rating_at.
    destruct (Nat.eq_dec row row0) as [->|Hne];
      [destruct (Nat.eq_dec col col0) as [->|Hne]|].
    + rewrite (text_at_value _ _ _ _ Hcell).
      destruct Hv as [<-|[<-|[]]]; vm_compute; reflexivity.
    + rewrite blank_no_rating; [reflexivity|]. apply Hblank. now right.
    + rewrite blank_no_rating; [reflexivity|]. apply Hblank. now left.
Qed.

(** C5. The weekend flag is the calendar's: the text YYMMDD is read with
    the two-digit-year convention and the flag is set exactly on
    Saturdays and Sundays. On a weekday the mbn key has the variants
    ["MBN뉴스7"], ["특집MBN뉴스7"], and a frame whose only cell is
    ["MBN뉴스7 8.1"] gives the rating 8.1; on a weekend day the key has
    ["MBN뉴스센터"], ["특집MBN뉴스센터"], and the same frame gives null. *)
Theorem C5_weekend_names (sheet : DataFrame cell) (row0 col0 : nat)
    (y m d : Z) :
  (5 <= ncols sheet)%nat -> (row0 < nrows sheet)%nat -> (1 <= col0 <= 4)%nat ->
  only_cell sheet row0 col0 (u "MBN뉴스7 8.1") ->
  valid_yymmdd y m d ->
  let weekend := saturday_or_sunday (full_year y) m d in
  strptime_yymmdd (yymmdd y m d) = Ok (mkdate (full_year y) m d)
  /\ is_weekend_date (mkdate (full_year y) m d) = weekend
  /\ dict_get (programs weekend) (u "mbn")
     = Some (if weekend then mbn_weekend_names else mbn_weekday_names)
  /\ find_program_data_improved sheet
       (if weekend then mbn_weekend_names else mbn_weekday_names)
     = Ok (if weekend then (None, None, None)
           else (Some rating_8_1, Some row0, Some col0))
  /\ (exists ratings,
        get_program_ratings sheet sheet (yymmdd y m d) = Ok ratings
        /\ dict_get ratings (u "mbn")
           = Some (if weekend then mkrecord (u "MBN뉴스센터") None None
                   else mkrecord (u "MBN뉴스7") (Some rating_8_1)
                          (Some rating_8_1)))
  /\ nearest_double 81 10 rating_8_1.
Proof.
  intros Hw Hr Hc Honly Hd weekend.
  destruct (strptime_valid y m d Hd) as [Hparse Hweekend].
  destruct (lone_mbn_cell sheet row0 col0 Hw Hr Hc Honly) as [Hday Hend].
  assert (Hfit : scan_fits sheet) by (left; lia).
  split; [exact Hparse|]. split; [exact Hweekend|].
  split; [destruct weekend; reflexivity|].
  split.
  { rewrite locate_refines by assumption. destruct weekend; now f_equal. }
  split; [|exact rating_8_1_nearest].
  exists (spec_ratings sheet sheet weekend).
  split; [now apply get_program_ratings_spec|].
  change (dict_get (spec_ratings sheet sheet weekend) (u "mbn"))
    with (Some (spec_record sheet sheet weekend mbn)).
  unfold spec_record. destruct weekend.
  - change (resolve_variants mbn true) with mbn_weekend_names. now rewrite Hend.
  - change (resolve_variants mbn false) with mbn_weekday_names. now rewrite Hday.
Qed.

Lemma mbn_sheet_only_cell : only_cell mbn_sheet 1 3 (u "MBN뉴스7 8.1").
Proof.
  split; [reflexivity|]. intros row col H.
  destruct row as [|[|row]].
  - do 5 (destruct col as [|col]; [reflexivity|]). destruct col; reflexivity.
  - do 5 (destruct col as [|col]; [first [reflexivity | exfalso; lia]|]).
    destruct col; reflexivity.
  - cbn. destruct row; destruct col; reflexivity.
Qed.

Lemma C5_weekend_names_witness :
  let weekend := saturday_or_sunday (full_year 24) 1 6 in
  strptime_yymmdd (yymmdd 24 1 6) = Ok (mkdate (full_year 24) 1 6)
  /\ is_weekend_date (mkdate (full_year 24) 1 6) = weekend
  /\ dict_get (programs weekend) (u "mbn")
     = Some (if weekend then mbn_weekend_names else mbn_weekday_names)
  /\ find_program_data_improved mbn_sheet
       (if weekend then mbn_weekend_names else mbn_weekday_names)
     = Ok (if weekend then (None, None, None)
           else (Some rating_8_1, Some 1%nat, Some 3%nat))
  /\ (exists ratings,
        get_program_ratings mbn_sheet mbn_sheet (yymmdd 24 1 6) = Ok ratings
        /\ dict_get ratings (u "mbn")
           = Some (if weekend then mkrecord (u "MBN뉴스센터") None None
                   else mkrecord (u "MBN뉴스7") (Some rating_8_1)
                          (Some rating_8_1)))
  /\ nearest_double 81 10 rating_8_1.
Proof.
  apply (C5_weekend_names mbn_sheet 1 3 24 1 6).
  - simpl. lia.
  - simpl. lia.
  - lia.
  - exact mbn_sheet_only_cell.
  - exact valid_240106.
Defined.

(** ** The rating text *)

Lemma text_before_first_char (c : char) (s : pystr) :
  text_before_first [c] s = truncate_at c s.
Proof.
  unfold text_before_first. induction s as [|x s IH]; [reflexivity|].
  rewrite find_eq. cbn [startswith truncate_at]. rewrite andb_true_r, Z.eqb_sym.
  destruct (x =? c); [reflexivity|].
  destruct (find [c] s) as [i|]; cbn [option_map firstn]; now rewrite <- IH.
Qed.

(** The first piece of a split is the text before the separator. *)
Lemma split_pieces_head (sep s : pystr) :
  sep <> [] ->
  getitem (split_pieces (length s) sep s) 0 = Ok (text_before_first sep s).
Proof.
  intros Hsep. rewrite split_pieces_unfold by assumption.
  unfold text_before_first. destruct (find sep s); reflexivity.
Qed.

Lemma getitem_cons {A : Type} (x : A) (l : list A) (i : nat) :
  getitem (x :: l) (S i) = getitem l i.
Proof. reflexivity. Qed.

(** The text the loop body cuts out of a cell: it starts after the first
    occurrence of the name and stops before the next one. *)
Lemma rating_str_spec (cell_value name after : pystr) :
  name <> [] ->
  text_after_first name cell_value = Some after ->
  rating_str cell_value name
  = Ok (strip (truncate_at 40 (strip (text_before_first name after)))).
Proof.
  intros Hname Hafter. unfold text_after_first in Hafter.
  destruct (find name cell_value) as [i|] eqn:E; [|discriminate].
  injection Hafter as <-.
  unfold rating_str, split. destruct name as [|c name]; [contradiction|].
  rewrite split_pieces_unfold, E by discriminate. cbv zeta.
  cbn [bind]. rewrite getitem_cons, split_pieces_head by discriminate.
  change (u "(") with [40]. cbn [bind].
  rewrite split_pieces_head by discriminate. cbn [bind].
  now rewrite text_before_first_char.
Qed.

Lemma contains_text_after (name text : pystr) :
  contains name text = true -> exists after, text_after_first name text = Some after.
Proof.
  unfold contains, text_after_first.
  destruct (find name text); [eauto|discriminate].
Qed.

(** C2, as the claim states it, fails when the name occurs again: in the
    candidate cell ["뉴스A 12.3 뉴스A"] the locator parses 12.3, while the
    text after the first occurrence of the name, trimmed and cut at the
    first parenthesis, is ["12.3 뉴스A"], which is not a float. *)
Lemma C2_repeated_name_differs :
  is_candidate repeated_name_cell (u "뉴스A") = true
  /\ parsed_rating repeated_name_cell (u "뉴스A") = Ok rating_12_3
  /\ text_after_first (u "뉴스A") repeated_name_cell = Some (u " 12.3 뉴스A")
  /\ spec_rating repeated_name_cell (u "뉴스A") = Raise ValueError
  /\ parsed_rating repeated_name_cell (u "뉴스A")
     <> spec_rating repeated_name_cell (u "뉴스A").
Proof. repeat split; try (vm_compute; reflexivity). vm_compute. discriminate. Qed.

(** C2, amended. For every candidate cell and non-empty variant name, the
    rating the locator parses is read from the part of the cell text that
    lies between the first occurrence of the name and its next occurrence
    (the rest of the text when the name does not occur again), trimmed,
    cut at the first ['('], trimmed again and parsed as a float; when the
    name occurs once, that part is all the text after the name. *)
Theorem C2_rating_text (cell_value name : pystr) :
  name <> [] ->
  is_candidate cell_value name = true ->
  exists after,
    text_after_first name cell_value = Some after
    /\ parsed_rating cell_value name
       = float_of_str
           (strip (truncate_at 40 (strip (text_before_first name after))))
    /\ (contains name after = false ->
        parsed_rating cell_value name = spec_rating cell_value name).
Proof.
  intros Hname Hcand. unfold is_candidate in Hcand.
  apply andb_prop in Hcand. destruct Hcand as [Hcand _].
  apply andb_prop in Hcand. destruct Hcand as [_ Hin].
  destruct (contains_text_after _ _ Hin) as [after Hafter].
  exists after. split; [assumption|].
  unfold parsed_rating, spec_rating.
  rewrite (rating_str_spec _ _ _ Hname Hafter), Hafter. cbn [bind].
  split; [reflexivity|].
  intros Hone. unfold contains in Hone. unfold text_before_first.
  destruct (find name after); [discriminate|reflexivity].
Qed.

Lemma C2_rating_text_witness :
  exists after,
    text_after_first (u "뉴스A") (u "뉴스A 12.3 (최종)") = Some after
    /\ parsed_rating (u "뉴스A 12.3 (최종)") (u "뉴스A")
       = float_of_str
           (strip (truncate_at 40 (strip (text_before_first (u "뉴스A") after))))
    /\ (contains (u "뉴스A") after = false ->
        parsed_rating (u "뉴스A 12.3 (최종)") (u "뉴스A")
        = spec_rating (u "뉴스A 12.3 (최종)") (u "뉴스A")).
Proof.
  apply (C2_rating_text (u "뉴스A 12.3 (최종)") (u "뉴스A")).
  - discriminate.
  - vm_compute. reflexivity.
Defined.

(** ** The special edition read through the normal name *)

Lemma parsed_rating_after (cell_value name after : pystr) :
  name <> [] ->
  text_after_first name cell_value = Some after ->
  parsed_rating cell_value name
  = float_of_str (strip (truncate_at 40 (strip (text_before_first name after)))).
Proof.
  intros Hname Hafter. unfold parsed_rating.
  now rewrite (rating_str_spec _ _ _ Hname Hafter).
Qed.

Lemma normal_name_embedded (k : ProgramKey) (weekend : bool) (rest : pystr) :
  normal_name k weekend <> []
  /\ text_after_first (normal_name k weekend)
       (u "특집" ++ normal_name k weekend ++ rest) = Some rest
  /\ text_after_first (normal_name k weekend)
       (normal_name k weekend ++ rest) = Some rest.
Proof.
  destruct k, weekend; (split; [discriminate|split; vm_compute; reflexivity]).
Qed.

(** C10. The matching test is containment, so a cell that starts with the
    special-edition name passes it for the normal name of the same
    program, for each program of the roster and either day type, and the
    rating parsed is the one of the text that follows the embedded name;
    the cell ["특집뉴스A 12.3"] is located with rating 12.3 when only
    ["뉴스A"] is tried, and on the first pass when both variants are. *)
Theorem C10_special_through_normal (k : ProgramKey) (weekend : bool)
    (rest : pystr) :
  let normal := normal_name k weekend in
  let special := u "특집" ++ normal in
  contains normal (special ++ rest) = true
  /\ text_after_first normal (special ++ rest) = Some rest
  /\ parsed_rating (special ++ rest) normal = parsed_rating (normal ++ rest) normal
  /\ cell_rating (u "특집뉴스A 12.3") (u "뉴스A") = Some rating_12_3
  /\ find_program_data_improved special_sheet [u "뉴스A"]
     = Ok (Some rating_12_3, Some 0%nat, Some 1%nat)
  /\ find_program_data_improved special_sheet [u "뉴스A"; u "특집뉴스A"]
     = Ok (Some rating_12_3, Some 0%nat, Some 1%nat)
  /\ for_each (range 1 5) (fun col =>
       for_each (range 0 (nrows special_sheet)) (fun row =>
         inspect_cell (fillna_astype_str special_sheet) (u "뉴스A") col row))
     = Ok (Some (rating_12_3, 0%nat, 1%nat)).
Proof.
  intros normal special.
  destruct (normal_name_embedded k weekend rest) as (Hne & Hsp & Hno).
  fold normal in Hne, Hsp, Hno.
  assert (Happ : special ++ rest = u "특집" ++ normal ++ rest)
    by (unfold special; now rewrite <- app_assoc).
  split.
  { unfold contains. rewrite Happ. unfold text_after_first in Hsp.
    destruct (find normal (u "특집" ++ normal ++ rest)); [reflexivity|discriminate]. }
  split; [now rewrite Happ|].
  split.
  { rewrite (parsed_rating_after _ _ rest Hne) by now rewrite Happ.
    now rewrite (parsed_rating_after _ _ rest Hne Hno). }
  repeat split; vm_compute; reflexivity.
Qed.

(** ** The structured region finder *)

Lemma range_snoc (lo hi : nat) :
  (lo <= hi)%nat -> range lo (S hi) = range lo hi ++ [hi].
Proof.
  intros H. rewrite (range_split lo hi (S hi)) by lia.
  f_equal. rewrite (range_cons hi (S hi)) by lia.
  unfold range. now rewrite Nat.sub_diag.
Qed.

(** The header-row loop over the first [n] rows: either no row is a
    header row, or the loop leaves at the topmost one. *)
Lemma header_scan (df : DataFrame cell) (n : nat) :
  (0 < ncols df)%nat -> (n <= nrows df)%nat ->
  let body := fun row =>
    c <- iloc df row 0 ;;
    if is_header_cell c then Ok (Some row) else Ok None in
  (for_each (range 0 n) body = Ok None
   /\ forall row, (row < n)%nat -> is_header_cell (cell_at df row 0) = false)
  \/ (exists row, (row < n)%nat
        /\ is_header_cell (cell_at df row 0) = true
        /\ (forall r, (r < row)%nat -> is_header_cell (cell_at df r 0) = false)
        /\ for_each (range 0 n) body = Ok (Some row)).
Proof.
  intros Hc Hn body. induction n as [|n IH].
  - left. split; [reflexivity|]. intros row H. lia.
  - assert (Hbody : body n = Ok (if is_header_cell (cell_at df n 0)
                                 then Some n else None)).
    { unfold body, iloc.
      replace (n <? nrows df)%nat with true by (symmetry; apply Nat.ltb_lt; lia).
      replace (0 <? ncols df)%nat with true by (symmetry; apply Nat.ltb_lt; lia).
      cbn [andb bind]. now destruct (is_header_cell (cell_at df n 0)). }
    rewrite range_snoc, for_each_app by lia.
    destruct IH as [[E Hnone]|(row & Hrow & Hhead & Hbefore & E)]; [lia| |];
      rewrite E.
    + cbn [for_each]. rewrite Hbody.
      destruct (is_header_cell (cell_at df n 0)) eqn:Hh.
      * right. exists n. split; [lia|]. split; [assumption|].
        split; [assumption|reflexivity].
      * left. split; [reflexivity|]. intros row Hrow.
        destruct (Nat.eq_dec row n) as [->|]; [assumption|]. apply Hnone. lia.
    + right. exists row. split; [lia|]. split; [assumption|].
      split; [assumption|reflexivity].
Qed.

Lemma str_eqb_eq (a b : pystr) : str_eqb a b = true <-> a = b.
Proof.
  unfold str_eqb. split.
  - intros H. apply andb_prop in H. destruct H as [Hl Hs].
    apply Nat.eqb_eq in Hl. apply startswith_inv in Hs.
    rewrite Hl, skipn_all, app_nil_r in Hs. now symmetry.
  - intros ->. rewrite Nat.eqb_refl. cbn [andb].
    rewrite <- (app_nil_r b) at 2. apply startswith_app.
Qed.

Lemma is_header_cell_iff (c : cell) :
  is_header_cell c = true <-> exists t, c = Value t /\ strip t = header_literal.
Proof.
  unfold is_header_cell. destruct c as [|t]; cbn [notna andb str].
  - split; [discriminate|]. intros (t & H & _). discriminate.
  - change (u "프로그램") with header_literal. rewrite str_eqb_eq. split.
    + intros H. now exists t.
    + intros (t' & [= <-] & H). exact H.
Qed.

(** C7, as the claim states it, fails in two ways. A column-0 cell that is
    the header literal with blanks around it does not equal the literal,
    yet it is taken as the header row and no error is raised; and in a
    frame with rows but no column the lookup leaves with [IndexError], not
    with the error it raises itself. *)
Lemma C7_padded_header_accepted :
  (forall row, cell_at padded_header_sheet row 0 <> Value header_literal)
  /\ find_program_row padded_header_sheet = Ok 0%nat
  /\ (forall row, cell_at no_column_sheet row 0 <> Value header_literal)
  /\ find_program_row no_column_sheet = Raise IndexError.
Proof.
  split; [|split; [vm_compute; reflexivity|split; [|vm_compute; reflexivity]]].
  - intros [|[|row]]; cbn; try discriminate. destruct row; discriminate.
  - intros [|[|row]]; cbn; try discriminate. destruct row; discriminate.
Qed.

(** C7, amended. For a frame that has a column 0, the header-row lookup
    raises its error exactly when no cell of column 0 is, once trimmed,
    the literal ["프로그램"]; when there is such a cell, the lookup raises
    nothing and the header row is the topmost row with one. A cell passes
    the test when it is not missing and its text, trimmed, is the
    literal. *)
Theorem C7_header_row (df : DataFrame cell) :
  (0 < ncols df)%nat ->
  (find_program_row df = Raise ValueError <->
   forall row, (row < nrows df)%nat -> is_header_cell (cell_at df row 0) = false)
  /\ (forall row,
        (row < nrows df)%nat ->
        is_header_cell (cell_at df row 0) = true ->
        (forall r, (r < row)%nat -> is_header_cell (cell_at df r 0) = false) ->
        find_program_row df = Ok row)
  /\ (forall e, find_program_row df = Raise e -> e = ValueError)
  /\ (forall c, is_header_cell c = true <->
                exists t, c = Value t /\ strip t = header_literal).
Proof.
  intros Hc.
  pose proof (header_scan df (nrows df) Hc (Nat.le_refl _)) as H. cbv zeta in H.
  unfold find_program_row.
  destruct H as [[E Hnone]|(row & Hrow & Hhead & Hbefore & E)]; rewrite E;
    cbn [bind].
  - split; [split; auto|]. split.
    + intros row Hrow Hhead. rewrite Hnone in Hhead by assumption. discriminate.
    + split; [intros e [= <-]; reflexivity|].
      exact is_header_cell_iff.
  - split; [split; [discriminate|]|].
    { intros Hnone. rewrite Hnone in Hhead by assumption. discriminate. }
    split.
    + intros row' Hrow' Hhead' Hbefore'. f_equal.
      destruct (Nat.lt_trichotomy row row') as [Hlt|[Heq|Hgt]]; [|assumption|].
      * rewrite (Hbefore' row Hlt) in Hhead. discriminate.
      * rewrite (Hbefore row' Hgt) in Hhead'. discriminate.
    + split; [discriminate|].
      exact is_header_cell_iff.
Qed.

Lemma C7_header_row_witness :
  (find_program_row structured_sheet = Raise ValueError <->
   forall row, (row < nrows structured_sheet)%nat ->
               is_header_cell (cell_at structured_sheet row 0) = false)
  /\ (forall row,
        (row < nrows structured_sheet)%nat ->
        is_header_cell (cell_at structured_sheet row 0) = true ->
        (forall r, (r < row)%nat ->
                   is_header_cell (cell_at structured_sheet r 0) = false) ->
        find_program_row structured_sheet = Ok row)
  /\ (forall e, find_program_row structured_sheet = Raise e -> e = ValueError)
  /\ (forall c, is_header_cell c = true <->
                exists t, c = Value t /\ strip t = header_literal).
Proof. apply (C7_header_row structured_sheet). simpl. lia. Defined.

Lemma iloc_in_bounds {A : Type} (df : DataFrame A) (row col : nat) :
  (row < nrows df)%nat -> (col < ncols df)%nat ->
  iloc df row col = Ok (cell_at df row col).
Proof.
  intros Hr Hc. unfold iloc.
  apply Nat.ltb_lt in Hr, Hc. now rewrite Hr, Hc.
Qed.

(** The 2049 search never leaves the frame: it returns the first marked
    column of the window, if any. *)
Lemma find_2049_col_spec (df : DataFrame cell) (program_col : nat) :
  (0 < nrows df)%nat ->
  find_2049_col df program_col = Ok (first_2049_col df program_col).
Proof.
  intros Hr. unfold find_2049_col, first_2049_col, window.
  rewrite <- (map_id (range program_col _)) at 2.
  apply for_each_map. intros col Hcol. apply in_range_iff in Hcol.
  rewrite iloc_in_bounds by lia. cbn [bind]. unfold is_2049_cell.
  now destruct (notna (cell_at df 0 col) && _).
Qed.

Lemma window_bounds (df : DataFrame cell) (program_col : nat) :
  (length (window df program_col) <= 10)%nat
  /\ forall col, In col (window df program_col) ->
                 (program_col <= col < program_col + 10)%nat
                 /\ (col < ncols df)%nat.
Proof.
  unfold window. split.
  - unfold range. rewrite length_seq. lia.
  - intros col H. apply in_range_iff in H. lia.
Qed.

Lemma match_block_spec (df : DataFrame cell) (row program_col : nat) :
  (0 < nrows df)%nat ->
  match_block df row program_col
  = Ok (mkregion row program_col (program_col + 1) (program_col + 2)
          (first_2049_col df program_col)).
Proof.
  intros Hr. unfold match_block. now rewrite find_2049_col_spec.
Qed.

(** [program_cols] holds the header columns of the header row, in order. *)
Lemma collect_program_cols_spec (df : DataFrame cell) (program_row : nat)
    (cols : list nat) :
  (program_row < nrows df)%nat ->
  (forall col, In col cols -> (col < ncols df)%nat) ->
  collect_program_cols df program_row cols
  = Ok (filter (fun col => is_header_cell (cell_at df program_row col)) cols).
Proof.
  intros Hr. induction cols as [|col cols IH]; intros Hc; [reflexivity|].
  cbn [collect_program_cols filter].
  rewrite iloc_in_bounds by (try apply Hc; simpl; auto).
  cbn [bind]. rewrite IH by (intros c Hin; apply Hc; now right).
  reflexivity.
Qed.

(** The inner loop of the scan, below the header row, in one header
    column: it leaves at the first News A row. *)
Lemma scan_column_first (df : DataFrame cell) (program_row program_col row : nat) :
  (program_col < ncols df)%nat -> (program_row < row < nrows df)%nat ->
  (forall r, (program_row < r < row)%nat ->
             is_news_a_cell (cell_at df r program_col) = false) ->
  is_news_a_cell (cell_at df row program_col) = true ->
  for_each (range (program_row + 1) (nrows df)) (inspect_row df program_col)
  = Ok (Some (mkregion row program_col (program_col + 1) (program_col + 2)
                (first_2049_col df program_col))).
Proof.
  intros Hc Hrow Hbefore Hat.
  apply (for_each_range_first (program_row + 1) (nrows df) row); [lia| |].
  - intros r Hr. unfold inspect_row. rewrite iloc_in_bounds by lia. cbn [bind].
    specialize (Hbefore r ltac:(lia)). unfold is_news_a_cell in Hbefore.
    destruct (notna (cell_at df r program_col)); [|reflexivity].
    cbn [andb] in Hbefore. cbv zeta. now rewrite Hbefore.
  - unfold inspect_row. rewrite iloc_in_bounds by lia. cbn [bind].
    unfold is_news_a_cell in Hat. apply andb_prop in Hat. destruct Hat as [-> ->].
    cbv zeta. rewrite match_block_spec by lia. reflexivity.
Qed.

Lemma scan_column_none (df : DataFrame cell) (program_row program_col : nat) :
  (program_col < ncols df)%nat ->
  (forall r, (program_row < r < nrows df)%nat ->
             is_news_a_cell (cell_at df r program_col) = false) ->
  for_each (range (program_row + 1) (nrows df)) (inspect_row df program_col)
  = Ok None.
Proof.
  intros Hc Hnone. apply for_each_all_none. intros r Hr.
  apply in_range_iff in Hr. unfold inspect_row.
  rewrite iloc_in_bounds by lia. cbn [bind].
  specialize (Hnone r ltac:(lia)). unfold is_news_a_cell in Hnone.
  destruct (notna (cell_at df r program_col)); [|reflexivity].
  cbn [andb] in Hnone. cbv zeta. now rewrite Hnone.
Qed.

(** The scan over the header columns leaves at the first News A row of
    the first header column that has one. *)
Lemma scan_news_a_first (df : DataFrame cell) (program_row program_col row : nat)
    (before after : list nat) :
  (program_col < ncols df)%nat -> (program_row < row < nrows df)%nat ->
  (forall col, In col before ->
     (col < ncols df)%nat
     /\ forall r, (program_row < r < nrows df)%nat ->
                  is_news_a_cell (cell_at df r col) = false) ->
  (forall r, (program_row < r < row)%nat ->
             is_news_a_cell (cell_at df r program_col) = false) ->
  is_news_a_cell (cell_at df row program_col) = true ->
  scan_news_a df program_row (before ++ program_col :: after)
  = Ok (Some (mkregion row program_col (program_col + 1) (program_col + 2)
                (first_2049_col df program_col))).
Proof.
  intros Hc Hrow Hcols Hbefore Hat. unfold scan_news_a.
  rewrite for_each_app, for_each_all_none.
  - cbn [for_each]. now rewrite (scan_column_first df program_row program_col row).
  - intros col Hin. destruct (Hcols col Hin) as [Hlt Hnone].
    now apply scan_column_none.
Qed.

Lemma filter_range_split (p : nat -> bool) (n k : nat) :
  (k < n)%nat -> p k = true ->
  filter p (range 0 n)
  = filter p (range 0 k) ++ k :: filter p (range (S k) n).
Proof.
  intros Hk Hp. rewrite (range_split 0 k n) by lia.
  rewrite (range_cons k n) by lia. rewrite filter_app. cbn [filter].
  now rewrite Hp.
Qed.

Lemma find_program_row_topmost (df : DataFrame cell) (row : nat) :
  (0 < ncols df)%nat -> (row < nrows df)%nat ->
  is_header_cell (cell_at df row 0) = true ->
  (forall r, (r < row)%nat -> is_header_cell (cell_at df r 0) = false) ->
  find_program_row df = Ok row.
Proof.
  intros Hc Hr Hhead Hbefore. unfold find_program_row.
  rewrite (for_each_range_first 0 (nrows df) row _ row); [reflexivity|lia| |].
  - intros r Hlt. rewrite iloc_in_bounds by lia. cbn [bind].
    now rewrite Hbefore by lia.
  - rewrite iloc_in_bounds by lia. cbn [bind]. now rewrite Hhead.
Qed.

(** The structured finder on a frame whose first News A row, in the first
    header column that has one, is [row]. *)
Lemma find_news_a_data_first_match (df : DataFrame cell)
    (program_row program_col row : nat) :
  (0 < ncols df)%nat ->
  (program_row < row < nrows df)%nat ->
  is_header_cell (cell_at df program_row 0) = true ->
  (forall r, (r < program_row)%nat -> is_header_cell (cell_at df r 0) = false) ->
  (program_col < ncols df)%nat ->
  is_header_cell (cell_at df program_row program_col) = true ->
  (forall col r, (col < program_col)%nat ->
     is_header_cell (cell_at df program_row col) = true ->
     (program_row < r < nrows df)%nat ->
     is_news_a_cell (cell_at df r col) = false) ->
  (forall r, (program_row < r < row)%nat ->
             is_news_a_cell (cell_at df r program_col) = false) ->
  is_news_a_cell (cell_at df row program_col) = true ->
  find_news_a_data df
  = Ok (Some (mkregion row program_col (program_col + 1) (program_col + 2)
                (first_2049_col df program_col))).
Proof.
  intros Hc Hrow Hhead Htop Hpc Hcol Hleft Hbefore Hat.
  unfold find_news_a_data.
  rewrite (find_program_row_topmost df program_row) by (assumption || lia).
  cbn [bind].
  rewrite collect_program_cols_spec
    by (try lia; intros col Hin; apply in_range_iff in Hin; lia).
  cbn [bind].
  rewrite (filter_range_split _ (ncols df) program_col) by assumption.
  apply scan_news_a_first; try assumption.
  intros col Hin. apply filter_In in Hin. destruct Hin as [Hin Hp].
  apply in_range_iff in Hin. split; [lia|].
  intros r Hr. apply Hleft; (assumption || lia).
Qed.

Lemma first_some_in {A R : Type} (g : A -> option R) (xs : list A) (r : R) :
  first_some g xs = Some r -> exists x, In x xs /\ g x = Some r.
Proof.
  induction xs as [|x xs IH]; simpl; [discriminate|].
  destruct (g x) as [r'|] eqn:E.
  - intros [= <-]. exists x. auto.
  - intros H. destruct (IH H) as (y & Hy & Hg). exists y. auto.
Qed.

Lemma exact_name_is_news_a (c : cell) :
  c = Value (u "뉴스A") \/ c = Value (u "특집뉴스A") -> is_news_a_cell c = true.
Proof. intros [-> | ->]; vm_compute; reflexivity. Qed.

(** C9. When the finder meets, below the header row and in a header
    column, the first cell that equals ["뉴스A"] or ["특집뉴스A"], it fixes
    program_col to that column, time_col to program_col + 1 and rating_col
    to program_col + 2, and the 2049 column is the first column, in a
    window of at most ten columns of row 0 starting at program_col, whose
    cell contains ["수도권 2049"] (none if there is no such column). With the
    header at (0, 0) and ["뉴스A"] at (5, 0) this is program_row 5,
    program_col 0, time_col 1, rating_col 2. *)
Theorem C9_structured_match (df : DataFrame cell)
    (program_row program_col row : nat) :
  (0 < ncols df)%nat ->
  (program_row < row < nrows df)%nat ->
  is_header_cell (cell_at df program_row 0) = true ->
  (forall r, (r < program_row)%nat -> is_header_cell (cell_at df r 0) = false) ->
  (program_col < ncols df)%nat ->
  is_header_cell (cell_at df program_row program_col) = true ->
  (forall col r, (col < program_col)%nat ->
     is_header_cell (cell_at df program_row col) = true ->
     (program_row < r < nrows df)%nat ->
     is_news_a_cell (cell_at df r col) = false) ->
  (forall r, (program_row < r < row)%nat ->
             is_news_a_cell (cell_at df r program_col) = false) ->
  cell_at df row program_col = Value (u "뉴스A")
  \/ cell_at df row program_col = Value (u "특집뉴스A") ->
  exists c2049,
    find_news_a_data df
    = Ok (Some (mkregion row program_col (program_col + 1) (program_col + 2)
                  c2049))
    /\ match_block df row program_col
       = Ok (mkregion row program_col (program_col + 1) (program_col + 2) c2049)
    /\ c2049 = first_2049_col df program_col
    /\ (length (window df program_col) <= 10)%nat
    /\ (forall col, In col (window df program_col) ->
          (program_col <= col < program_col + 10)%nat /\ (col < ncols df)%nat)
    /\ (forall col, c2049 = Some col ->
          In col (window df program_col)
          /\ notna (cell_at df 0 col) = true
          /\ contains (u "수도권 2049") (str (cell_at df 0 col)) = true).
Proof.
  intros Hc Hrow Hhead Htop Hpc Hcol Hleft Hbefore Hcell.
  exists (first_2049_col df program_col).
  split.
  { apply (find_news_a_data_first_match df program_row); try assumption.
    now apply exact_name_is_news_a. }
  split; [apply match_block_spec; lia|].
  split; [reflexivity|].
  destruct (window_bounds df program_col) as [Hlen Hwin].
  split; [assumption|]. split; [assumption|].
  intros col Hfound. unfold first_2049_col in Hfound.
  apply first_some_in in Hfound. destruct Hfound as (x & Hin & Hx).
  unfold is_2049_cell in Hx.
  destruct (notna (cell_at df 0 x) && contains (u "수도권 2049") (str (cell_at df 0 x)))
    eqn:E; [|discriminate].
  injection Hx as ->. apply andb_prop in E. destruct E. auto.
Qed.

Lemma C9_structured_match_witness :
  exists c2049,
    find_news_a_data structured_sheet
    = Ok (Some (mkregion 5 0 (0 + 1) (0 + 2) c2049))
    /\ match_block structured_sheet 5 0
       = Ok (mkregion 5 0 (0 + 1) (0 + 2) c2049)
    /\ c2049 = first_2049_col structured_sheet 0
    /\ (length (window structured_sheet 0) <= 10)%nat
    /\ (forall col, In col (window structured_sheet 0) ->
          (0 <= col < 0 + 10)%nat /\ (col < ncols structured_sheet)%nat)
    /\ (forall col, c2049 = Some col ->
          In col (window structured_sheet 0)
          /\ notna (cell_at structured_sheet 0 col) = true
          /\ contains (u "수도권 2049") (str (cell_at structured_sheet 0 col))
             = true).
Proof.
  apply (C9_structured_match structured_sheet 0 0 5).
  - simpl. lia.
  - simpl. lia.
  - vm_compute. reflexivity.
  - intros r H. lia.
  - simpl. lia.
  - vm_compute. reflexivity.
  - intros col r H. lia.
  - intros r H.
    do 5 (destruct r as [|r]; [first [vm_compute; reflexivity | lia]|]). lia.
  - left. reflexivity.
Defined.

(** The example of the description, on every frame that has the header
    at (0, 0), ["뉴스A"] at (5, 0) and no News A row above it. *)
Lemma structured_example (df : DataFrame cell) :
  (5 < nrows df)%nat -> (0 < ncols df)%nat ->
  cell_at df 0 0 = Value (u "프로그램") ->
  cell_at df 5 0 = Value (u "뉴스A") ->
  (forall r, (0 < r < 5)%nat -> is_news_a_cell (cell_at df r 0) = false) ->
  find_news_a_data df
  = Ok (Some (mkregion 5 0 1 2 (first_2049_col df 0))).
Proof.
  intros Hr Hc Hhead Hcell Hnone.
  apply (find_news_a_data_first_match df 0 0 5); try lia; try assumption.
  - rewrite Hhead. vm_compute. reflexivity.
  - rewrite Hhead. vm_compute. reflexivity.
  - rewrite Hcell. vm_compute. reflexivity.
Qed.

(** * Further properties of the program *)

(** ** Times of any sign and fields out of range *)

Lemma seconds_fields (n : Z) :
  n = (n / 3600) * 3600 + ((n mod 3600) / 60) * 60 + n mod 60
  /\ 0 <= (n mod 3600) / 60 <= 59 /\ 0 <= n mod 60 <= 59.
Proof.
  pose proof (Z.div_mod n 3600 ltac:(lia)) as H1.
  pose proof (Z.mod_pos_bound n 3600 ltac:(lia)) as B1.
  pose proof (Z.div_mod (n mod 3600) 60 ltac:(lia)) as H2.
  pose proof (Z.mod_pos_bound (n mod 3600) 60 ltac:(lia)) as B2.
  assert (E : (n mod 3600) mod 60 = n mod 60).
  { apply Z.mod_unique with (q := 60 * (n / 3600) + (n mod 3600) / 60); lia. }
  rewrite E in H2, B2.
  assert (0 <= (n mod 3600) / 60) by (apply Z.div_pos; lia).
  assert ((n mod 3600) / 60 < 60) by (apply Z.div_lt_upper_bound; lia).
  lia.
Qed.

(** X1. Formatting and parsing back gives the same number of seconds, for
    every int whose number of hours [n // 3600] has at most 4300 digits
    (the interpreter's limit for decimal text), negative ones included. *)
Theorem X1_seconds_text_seconds (n : Z) :
  Z.abs (n / 3600) < int_text_limit ->
  exists t, seconds_to_time_str n = Ok t
            /\ time_to_seconds t = Ok (Some n).
Proof.
  intros Hh. destruct (seconds_fields n) as (E & Hm & Hs).
  eexists. split; [now apply seconds_to_time_str_ok|].
  rewrite time_to_seconds_fields; try assumption.
  - now rewrite <- E.
  - apply small_below_limit. lia.
Qed.

Lemma X1_seconds_text_seconds_witness :
  exists t, seconds_to_time_str (-1) = Ok t
            /\ time_to_seconds t = Ok (Some (-1)).
Proof. apply (X1_seconds_text_seconds (-1)). reflexivity. Defined.

Lemma two_digit_fields : forallb (fun k => (length (two_digits (Z.of_nat k)) =? 2)%nat) (seq 0 100) = true.
Proof. vm_compute. reflexivity. Qed.

Lemma two_digits_length (k : Z) : 0 <= k <= 99 -> length (two_digits k) = 2%nat.
Proof.
  intros Hk. pose proof two_digit_fields as H. rewrite forallb_forall in H.
  specialize (H (Z.to_nat k) ltac:(apply in_seq; lia)).
  rewrite Z2Nat.id in H by lia. now apply Nat.eqb_eq.
Qed.

(** X2. Below a hundred hours the text has exactly eight characters:
    three two-digit fields and two colons. *)
Theorem X2_fixed_width (n : Z) :
  0 <= n < 360000 ->
  exists t, seconds_to_time_str n = Ok t
            /\ length t = 8%nat
            /\ nth_error t 2 = Some 58
            /\ nth_error t 5 = Some 58.
Proof.
  intros Hn. destruct (seconds_fields n) as (E & Hm & Hs).
  assert (Hh : 0 <= n / 3600 <= 99).
  { split; [apply Z.div_pos; lia|].
    assert (n / 3600 < 100) by (apply Z.div_lt_upper_bound; lia). lia. }
  eexists. split.
  { apply seconds_to_time_str_ok. apply small_below_limit. lia. }
  unfold hhmmss.
  pose proof (two_digits_length _ Hh) as L1.
  pose proof (two_digits_length ((n mod 3600) / 60) ltac:(lia)) as L2.
  pose proof (two_digits_length (n mod 60) ltac:(lia)) as L3.
  destruct (two_digits (n / 3600)) as [|a [|b [|? ?]]]; try discriminate.
  destruct (two_digits ((n mod 3600) / 60)) as [|c [|d [|? ?]]]; try discriminate.
  destruct (two_digits (n mod 60)) as [|e [|f [|? ?]]]; try discriminate.
  repeat split.
Qed.

Lemma X2_fixed_width_witness :
  exists t, seconds_to_time_str 32730 = Ok t
            /\ length t = 8%nat
            /\ nth_error t 2 = Some 58
            /\ nth_error t 5 = Some 58.
Proof. apply (X2_fixed_width 32730). lia. Defined.

(** X3. The minutes field is not range-checked: a text whose minutes are
    60 or more is read as that many minutes, and formatting the result
    carries them into the hours. This holds for the texts that [int] can
    read and whose result can be formatted: minutes of at most 4300
    digits, and hours of at most 4300 digits once the minutes are carried
    into them. *)
Theorem X3_minutes_carry (h m s : Z) :
  0 <= h -> 0 <= m < int_text_limit -> 0 <= s <= 59 ->
  h + m / 60 < int_text_limit ->
  time_to_seconds (hhmmss h m s) = Ok (Some (h * 3600 + m * 60 + s))
  /\ seconds_to_time_str (h * 3600 + m * 60 + s)
     = Ok (hhmmss (h + m / 60) (m mod 60) s).
Proof.
  intros Hh Hm Hs Hlim.
  pose proof (Z.div_mod m 60 ltac:(lia)) as E.
  pose proof (Z.mod_pos_bound m 60 ltac:(lia)) as B.
  assert (0 <= m / 60) by (apply Z.div_pos; lia).
  split; [apply time_to_seconds_fields; lia|].
  replace (h * 3600 + m * 60 + s)
    with ((h + m / 60) * 3600 + (m mod 60) * 60 + s) by lia.
  destruct (hms_div_mod (h + m / 60) (m mod 60) s ltac:(lia) Hs) as (E1 & E2 & E3).
  rewrite seconds_to_time_str_ok; rewrite E1; [|lia].
  now rewrite E2, E3.
Qed.

Lemma X3_minutes_carry_witness :
  time_to_seconds (hhmmss 0 75 0) = Ok (Some (0 * 3600 + 75 * 60 + 0))
  /\ seconds_to_time_str (0 * 3600 + 75 * 60 + 0)
     = Ok (hhmmss (0 + 75 / 60) (75 mod 60) 0).
Proof.
  apply (X3_minutes_carry 0 75 0); try lia.
  - split; [lia|reflexivity].
  - reflexivity.
Defined.

(** ** [convert_to_time_str] *)

Lemma find_char_none_inv (c : char) (s : pystr) :
  find [c] s = None -> Forall (fun x => x <> c) s.
Proof.
  induction s as [|x s IH]; intros H; [constructor|].
  rewrite find_eq in H. cbn [startswith] in H. rewrite andb_true_r in H.
  destruct (c =? x) eqn:E; [discriminate|].
  apply Z.eqb_neq in E. constructor; [congruence|].
  apply IH. destruct (find [c] s); [discriminate|reflexivity].
Qed.

Lemma find_char_some_inv (c : char) (s : pystr) (i : nat) :
  find [c] s = Some i -> Forall (fun x => x <> c) (firstn i s).
Proof.
  revert i. induction s as [|x s IH]; intros i H.
  - rewrite firstn_nil. constructor.
  - rewrite find_eq in H. cbn [startswith] in H. rewrite andb_true_r in H.
    destruct (c =? x) eqn:E.
    + injection H as <-. constructor.
    + apply Z.eqb_neq in E.
      destruct (find [c] s) as [j|]; [|discriminate].
      injection H as <-. cbn [firstn]. constructor; [congruence|]. now apply IH.
Qed.

(** No piece of a split holds the separating character. *)
Lemma pieces_no_char (c : char) (n : nat) :
  forall s, (length s <= n)%nat ->
  Forall (Forall (fun x => x <> c)) (split_pieces (length s) [c] s).
Proof.
  induction n as [|n IH]; intros s Hs;
    rewrite split_pieces_unfold by discriminate.
  - destruct s; [|simpl in Hs; lia]. repeat constructor.
  - destruct (find [c] s) as [i|] eqn:E.
    + cbv zeta. constructor; [now apply find_char_some_inv|].
      apply IH. pose proof (find_bound _ _ _ E) as Hb.
      rewrite length_skipn. change (length [c]) with 1%nat in *. lia.
    + constructor; [now apply find_char_none_inv|constructor].
Qed.

Lemma zfill2_no_colon (p : pystr) :
  Forall (fun x => x <> 58) p -> Forall (fun x => x <> 58) (zfill2 p).
Proof.
  intros H. destruct p as [|a [|b p]]; cbn [zfill2].
  - constructor; [lia|]. constructor; [lia|constructor].
  - inversion H as [|? ? Ha _]; subst.
    destruct ((a =? 43) || (a =? 45)).
    + constructor; [exact Ha|]. constructor; [lia|constructor].
    + constructor; [lia|]. constructor; [exact Ha|constructor].
  - assumption.
Qed.


Lemma split_three_fields (a b c : pystr) :
  Forall (fun x => x <> 58) a -> Forall (fun x => x <> 58) b ->
  Forall (fun x => x <> 58) c ->
  split (a ++ u ":" ++ b ++ u ":" ++ c) (u ":") = Ok [a; b; c].
Proof.
  intros Ha Hb Hc. unfold split. change (u ":") with [58].
  change (a ++ [58] ++ b ++ [58] ++ c) with (a ++ 58 :: b ++ 58 :: c).
  now rewrite !split_pieces_char, split_pieces_last.
Qed.


(** The text of a [str] argument, by the number of its fields. *)
Lemma convert_str_cases (s : pystr) :
  (exists p0 p1 p2 rest,
     split s (u ":") = Ok (p0 :: p1 :: p2 :: rest)
     /\ convert_to_time_str (Str s)
        = Ok (zfill2 p0 ++ u ":" ++ zfill2 p1 ++ u ":" ++ zfill2 p2)
     /\ Forall (fun x => x <> 58) p0 /\ Forall (fun x => x <> 58) p1
     /\ Forall (fun x => x <> 58) p2)
  \/ (exists p0 p1,
        split s (u ":") = Ok [p0; p1]
        /\ convert_to_time_str (Str s)
           = Ok (zfill2 p0 ++ u ":" ++ zfill2 p1 ++ u ":" ++ u "00")
        /\ Forall (fun x => x <> 58) p0 /\ Forall (fun x => x <> 58) p1)
  \/ (split s (u ":") = Ok [s] /\ convert_to_time_str (Str s) = Ok s).
Proof.
  assert (Hp : Forall (Forall (fun x => x <> 58))
                 (split_pieces (length s) [58] s))
    by apply (pieces_no_char 58 (length s) s (Nat.le_refl _)).
  assert (Hshape : split_pieces (length s) [58] s = [s]
                   \/ exists p0 p1 more,
                        split_pieces (length s) [58] s = p0 :: p1 :: more).
  { rewrite split_pieces_unfold by discriminate.
    destruct (find [58] s); [right|left; reflexivity]. cbv zeta.
    rewrite split_pieces_unfold by discriminate.
    match goal with
    | |- context [match find ?a ?b with _ => _ end] => destruct (find a b)
    end; do 3 eexists; reflexivity. }
  unfold convert_to_time_str, split. change (u ":") with [58].
  destruct Hshape as [E|(p0 & p1 & more & E)]; rewrite E in *.
  - right. right. split; reflexivity.
  - apply Forall_cons_iff in Hp. destruct Hp as [Hp0 Hp].
    apply Forall_cons_iff in Hp. destruct Hp as [Hp1 Hp].
    destruct more as [|p2 more].
    + right. left. exists p0, p1. repeat split; assumption.
    + left. exists p0, p1, p2, more.
      apply Forall_cons_iff in Hp. destruct Hp as [Hp2 _].
      repeat split; assumption.
Qed.



Lemma valid_time_bounds (h m s : Z) :
  valid_time h m s = true -> 0 <= h <= 23 /\ 0 <= m <= 59 /\ 0 <= s <= 59.
Proof.
  unfold valid_time. intros H.
  repeat (apply andb_prop in H; destruct H as [H ?]).
  repeat match goal with
         | H : (_ <=? _) = true |- _ => apply Z.leb_le in H
         end.
  lia.
Qed.

(** A time of day is written as its three two-digit fields. *)
Lemma convert_time_of_day (t : time_of_day) :
  convert_to_time_str (TimeOfDay t)
  = Ok (hhmmss (hour t) (minute t) (second t)).
Proof.
  destruct (valid_time_bounds _ _ _ (time_in_range t)) as (Hh & Hm & Hs).
  unfold convert_to_time_str, hhmmss.
  rewrite !format_02d_ok by (apply small_below_limit; lia).
  reflexivity.
Qed.



Lemma to_ascii_not_sign (c : char) :
  is_ascii_digit (to_ascii c) = true -> (c =? 43) || (c =? 45) = false.
Proof.
  intros H. apply orb_false_intro; apply Z.eqb_neq; intros ->; discriminate H.
Qed.

Lemma digit_not_space (a : char) :
  is_ascii_digit a = true -> ascii_isspace a = false.
Proof.
  unfold is_ascii_digit, ascii_isspace. intros H.
  apply andb_prop in H. destruct H as [H1 H2].
  apply Z.leb_le in H1, H2. apply orb_false_intro.
  - apply andb_false_intro2. apply Z.leb_gt. lia.
  - apply Z.eqb_neq. lia.
Qed.

Lemma digit_not_sign (a : char) :
  is_ascii_digit a = true ->
  (a =? 45) = false /\ (a =? 43) = false /\ (a =? 46) = false
  /\ (a =? 95) = false.
Proof.
  unfold is_ascii_digit. intros H.
  apply andb_prop in H. destruct H as [H1 H2].
  apply Z.leb_le in H1, H2. repeat split; apply Z.eqb_neq; lia.
Qed.

(** A one-character text that [int] accepts is a digit. *)
Lemma int_of_single_inv (c : char) (v : Z) :
  int_of_str [c] = Ok v ->
  is_ascii_digit (to_ascii c) = true /\ v = to_ascii c - 48.
Proof.
  unfold int_of_str. cbn [map dropwhile].
  destruct (ascii_isspace (to_ascii c)); [discriminate|].
  unfold sign_of.
  destruct (to_ascii c =? 45); [discriminate|].
  destruct (to_ascii c =? 43); [discriminate|].
  unfold digitpart. destruct (is_ascii_digit (to_ascii c)); [|discriminate].
  cbn. intros [= <-]. split; reflexivity.
Qed.

Lemma int_of_padded_digit (c : char) :
  is_ascii_digit (to_ascii c) = true ->
  int_of_str [48; c] = Ok (to_ascii c - 48).
Proof.
  intros H. unfold int_of_str.
  change (map to_ascii [48; c]) with [48; to_ascii c].
  change (dropwhile ascii_isspace [48; to_ascii c]) with [48; to_ascii c].
  change (sign_of [48; to_ascii c]) with (false, [48; to_ascii c]).
  unfold digitpart. change (is_ascii_digit 48) with true. cbv iota.
  cbn [digitpart_rest]. rewrite H. cbn. reflexivity.
Qed.

(** Padding a field does not change the int it is read as. *)
Lemma int_of_zfill2 (p : pystr) (v : Z) :
  int_of_str p = Ok v -> int_of_str (zfill2 p) = Ok v.
Proof.
  destruct p as [|c [|d p]]; cbn [zfill2]; [discriminate| |auto].
  intros H. apply int_of_single_inv in H. destruct H as [Hd ->].
  rewrite (to_ascii_not_sign c Hd). now apply int_of_padded_digit.
Qed.

(** A one-character text that [float] accepts is a digit. *)
Lemma float_of_single_inv (c : char) (x : pyfloat) :
  float_of_str [c] = Ok x ->
  is_ascii_digit (to_ascii c) = true
  /\ x = round_decimal false (to_ascii c - 48) 0.
Proof.
  unfold float_of_str. cbn [map dropwhile].
  destruct (ascii_isspace (to_ascii c)) eqn:Esp; [cbn; discriminate|].
  cbn [rev app dropwhile]. rewrite Esp. cbn [rev app].
  unfold sign_of.
  destruct (to_ascii c =? 45); [cbn; discriminate|].
  destruct (to_ascii c =? 43); [cbn; discriminate|].
  change (str_eqb (map lower [to_ascii c]) (u "inf")) with false.
  change (str_eqb (map lower [to_ascii c]) (u "infinity")) with false.
  change (str_eqb (map lower [to_ascii c]) (u "nan")) with false.
  cbn [orb]. unfold floatnumber, opt_digitpart, digitpart.
  destruct (is_ascii_digit (to_ascii c)) eqn:Ed.
  - cbn. intros [= <-]. split; reflexivity.
  - unfold fraction. destruct (to_ascii c =? 46); cbn; discriminate.
Qed.

Lemma float_of_padded_digit (c : char) :
  is_ascii_digit (to_ascii c) = true ->
  float_of_str [48; c] = Ok (round_decimal false (to_ascii c - 48) 0).
Proof.
  intros H. destruct (digit_not_sign _ H) as (E45 & E43 & E46 & E95).
  pose proof (digit_not_space _ H) as Esp.
  unfold float_of_str.
  change (map to_ascii [48; c]) with [48; to_ascii c].
  change (dropwhile ascii_isspace [48; to_ascii c]) with [48; to_ascii c].
  cbn [rev app dropwhile]. rewrite Esp. cbn [rev app].
  change (sign_of [48; to_ascii c]) with (false, [48; to_ascii c]).
  change (str_eqb (map lower [48; to_ascii c]) (u "inf")) with false.
  change (str_eqb (map lower [48; to_ascii c]) (u "infinity")) with false.
  change (str_eqb (map lower [48; to_ascii c]) (u "nan")) with false.
  cbn [orb]. unfold floatnumber, opt_digitpart, digitpart.
  change (is_ascii_digit 48) with true. cbv iota.
  cbn [digitpart_rest]. rewrite H. cbn. reflexivity.
Qed.

(** Padding the seconds field does not change the float it is read as. *)
Lemma float_of_zfill2 (p : pystr) (x : pyfloat) :
  float_of_str p = Ok x -> float_of_str (zfill2 p) = Ok x.
Proof.
  destruct p as [|c [|d p]]; cbn [zfill2]; [discriminate| |auto].
  intros H. apply float_of_single_inv in H. destruct H as [Hd ->].
  rewrite (to_ascii_not_sign c Hd). now apply float_of_padded_digit.
Qed.

Lemma time_to_seconds_three (a b c : pystr) :
  Forall (fun x => x <> 58) a -> Forall (fun x => x <> 58) b ->
  Forall (fun x => x <> 58) c ->
  time_to_seconds (a ++ u ":" ++ b ++ u ":" ++ c)
  = try_except
      (hours <- int_of_str a ;;
       minutes <- int_of_str b ;;
       seconds <- (x <- float_of_str c ;; int_of_float x) ;;
       Ok (Some (hours * 3600 + minutes * 60 + seconds)))
      any_exception (Ok None).
Proof.
  intros Ha Hb Hc. unfold time_to_seconds, time_to_seconds_body.
  rewrite split_three_fields by assumption. reflexivity.
Qed.

(** X5. Converting a time text does not change the number of seconds it
    is read as: whenever [time_to_seconds] reads a text, it reads the
    converted text as the same number. *)
Theorem X5_convert_keeps_seconds (s : pystr) (n : Z) :
  time_to_seconds s = Ok (Some n) ->
  exists t, convert_to_time_str (Str s) = Ok t
            /\ time_to_seconds t = Ok (Some n).
Proof.
  intros H. unfold time_to_seconds, time_to_seconds_body in H.
  destruct (convert_str_cases s)
    as [(p0 & p1 & p2 & rest & Es & E & H0 & H1 & H2)
       |[(p0 & p1 & Es & E & H0 & H1)|[Es E]]];
    rewrite Es in H; cbn [bind getitem nth_error length Nat.leb] in H.
  - eexists. split; [exact E|].
    rewrite time_to_seconds_three by now apply zfill2_no_colon.
    destruct (int_of_str p0) as [h|] eqn:Eh; [|discriminate].
    destruct (int_of_str p1) as [m|] eqn:Em; [|discriminate].
    cbn [bind] in H.
    destruct (float_of_str p2) as [x|] eqn:Ex; [|discriminate].
    rewrite (int_of_zfill2 _ _ Eh), (int_of_zfill2 _ _ Em),
      (float_of_zfill2 _ _ Ex).
    exact H.
  - eexists. split; [exact E|].
    rewrite time_to_seconds_three
      by (try (now apply zfill2_no_colon); repeat constructor; discriminate).
    destruct (int_of_str p0) as [h|] eqn:Eh; [|discriminate].
    destruct (int_of_str p1) as [m|] eqn:Em; [|discriminate].
    rewrite (int_of_zfill2 _ _ Eh), (int_of_zfill2 _ _ Em).
    exact H.
  - destruct (int_of_str s); discriminate.
Qed.

Lemma X5_convert_keeps_seconds_witness :
  exists t, convert_to_time_str (Str (u "9:5:7.5")) = Ok t
            /\ time_to_seconds t = Ok (Some 32707).
Proof.
  apply (X5_convert_keeps_seconds (u "9:5:7.5") 32707).
  vm_compute. reflexivity.
Defined.

(** X6. A time of day is converted to its three two-digit fields, and the
    text is read back as the seconds since midnight, below a day. *)
Theorem X6_time_of_day_seconds (h m s : Z)
    (in_range : valid_time h m s = true) :
  0 <= h <= 23 /\ 0 <= m <= 59 /\ 0 <= s <= 59
  /\ exists t,
       convert_to_time_str (TimeOfDay (mktime h m s in_range)) = Ok t
       /\ length t = 8%nat
       /\ time_to_seconds t = Ok (Some (h * 3600 + m * 60 + s))
       /\ 0 <= h * 3600 + m * 60 + s < 86400
       /\ seconds_to_time_str (h * 3600 + m * 60 + s) = Ok t.
Proof.
  destruct (valid_time_bounds h m s in_range) as (Hh & Hm & Hs).
  do 3 (split; [assumption|]).
  eexists. split; [apply convert_time_of_day|].
  cbn [hour minute second]. split.
  { unfold hhmmss. rewrite !length_app.
    rewrite !two_digits_length by lia. reflexivity. }
  split; [apply time_to_seconds_fields; try assumption;
          apply small_below_limit; lia|].
  split; [lia|].
  destruct (hms_div_mod h m s Hm Hs) as (E1 & E2 & E3).
  rewrite seconds_to_time_str_ok; rewrite E1;
    [|apply small_below_limit; lia].
  now rewrite E2, E3.
Qed.

Lemma X6_time_of_day_seconds_witness :
  0 <= 19 <= 23 /\ 0 <= 45 <= 59 /\ 0 <= 9 <= 59
  /\ exists t,
       convert_to_time_str (TimeOfDay (mktime 19 45 9 eq_refl)) = Ok t
       /\ length t = 8%nat
       /\ time_to_seconds t = Ok (Some (19 * 3600 + 45 * 60 + 9))
       /\ 0 <= 19 * 3600 + 45 * 60 + 9 < 86400
       /\ seconds_to_time_str (19 * 3600 + 45 * 60 + 9) = Ok t.
Proof. apply (X6_time_of_day_seconds 19 45 9 eq_refl). Defined.

(** ** What the locator returns, reads and raises *)

Lemma for_each_some_inv {A R : Type} (xs : list A)
    (body : A -> result (option R)) (r : R) :
  for_each xs body = Ok (Some r) ->
  exists x, In x xs /\ body x = Ok (Some r).
Proof.
  induction xs as [|x xs IH]; simpl; [discriminate|].
  destruct (body x) as [[r'|]|e] eqn:E; intros H.
  - injection H as <-. exists x. auto.
  - destruct (IH H) as (y & Hy & Hb). exists y. auto.
  - discriminate.
Qed.

Lemma for_each_raise_inv {A R : Type} (xs : list A)
    (body : A -> result (option R)) (e : exn) :
  for_each xs body = Raise e ->
  exists x, In x xs /\ body x = Raise e.
Proof.
  induction xs as [|x xs IH]; simpl; [discriminate|].
  destruct (body x) as [[r'|]|e'] eqn:E; intros H.
  - discriminate.
  - destruct (IH H) as (y & Hy & Hb). exists y. auto.
  - injection H as <-. exists x. auto.
Qed.

Lemma iloc_out_of_bounds {A : Type} (df : DataFrame A) (row col : nat) :
  ~ ((row < nrows df)%nat /\ (col < ncols df)%nat) ->
  iloc df row col = Raise IndexError.
Proof.
  intros H. unfold iloc.
  destruct (row <? nrows df)%nat eqn:Er; destruct (col <? ncols df)%nat eqn:Ec;
    try reflexivity.
  apply Nat.ltb_lt in Er, Ec. tauto.
Qed.

Lemma inspect_cell_out_of_bounds (sheet : DataFrame cell) (v : pystr)
    (col row : nat) :
  ~ ((row < nrows sheet)%nat /\ (col < ncols sheet)%nat) ->
  inspect_cell (fillna_astype_str sheet) v col row = Raise IndexError.
Proof.
  intros H. unfold inspect_cell. now rewrite iloc_out_of_bounds.
Qed.

Lemma in_bounds_dec (sheet : DataFrame cell) (row col : nat) :
  ((row < nrows sheet)%nat /\ (col < ncols sheet)%nat)
  \/ ~ ((row < nrows sheet)%nat /\ (col < ncols sheet)%nat).
Proof. lia. Qed.

Lemma inspect_cell_some_inv (sheet : DataFrame cell) (v : pystr)
    (col row : nat) (r : pyfloat * nat * nat) :
  inspect_cell (fillna_astype_str sheet) v col row = Ok (Some r) ->
  (row < nrows sheet)%nat /\ (col < ncols sheet)%nat
  /\ rating_at sheet (v, col, row) = Some r.
Proof.
  intros H. destruct (in_bounds_dec sheet row col) as [[Hr Hc]|Hout].
  - rewrite inspect_cell_in_bounds in H by assumption.
    injection H as H. auto.
  - rewrite inspect_cell_out_of_bounds in H by assumption. discriminate.
Qed.

Lemma inspect_cell_raise_inv (sheet : DataFrame cell) (v : pystr)
    (col row : nat) (e : exn) :
  inspect_cell (fillna_astype_str sheet) v col row = Raise e ->
  e = IndexError /\ ~ ((row < nrows sheet)%nat /\ (col < ncols sheet)%nat).
Proof.
  intros H. destruct (in_bounds_dec sheet row col) as [[Hr Hc]|Hout].
  - rewrite inspect_cell_in_bounds in H by assumption. discriminate.
  - rewrite inspect_cell_out_of_bounds in H by assumption.
    injection H as <-. auto.
Qed.

Lemma cell_rating_some_inv (text v : pystr) (x : pyfloat) :
  cell_rating text v = Some x ->
  is_candidate (strip text) v = true /\ parsed_rating (strip text) v = Ok x.
Proof.
  unfold cell_rating. cbv zeta.
  destruct (is_candidate (strip text) v); [|discriminate].
  destruct (parsed_rating (strip text) v); cbn; [|discriminate].
  intros [= <-]. auto.
Qed.

(** X7. Whatever the locator returns is either three nulls or a position
    inside the frame, in one of the columns 1 to 4, whose trimmed cell is
    a candidate for one of the listed names (non-empty, holding the name
    and a digit) and parses to the returned rating. *)
Theorem X7_locator_sound (sheet : DataFrame cell) (names : list pystr)
    (res : MatchResult) :
  find_program_data_improved sheet names = Ok res ->
  res = (None, None, None)
  \/ exists x row col v,
       res = (Some x, Some row, Some col)
       /\ In v names
       /\ (1 <= col <= 4)%nat /\ (col < ncols sheet)%nat
       /\ (row < nrows sheet)%nat
       /\ is_candidate (strip (text_at sheet row col)) v = true
       /\ parsed_rating (strip (text_at sheet row col)) v = Ok x.
Proof.
  unfold find_program_data_improved. cbn [nrows fillna_astype_str].
  destruct (for_each names _) as [[[[x row] col]|]|e] eqn:E; cbn [bind];
    [|intros [= <-]; now left|discriminate].
  intros [= <-]. right.
  apply for_each_some_inv in E. destruct E as (v & Hv & E).
  apply for_each_some_inv in E. destruct E as (col' & Hcol & E).
  apply for_each_some_inv in E. destruct E as (row' & Hrow & E).
  apply inspect_cell_some_inv in E. destruct E as (Hr & Hc & E).
  apply in_range_iff in Hcol. unfold rating_at in E.
  destruct (cell_rating (text_at sheet row' col') v) as [x'|] eqn:Ec;
    [|discriminate].
  injection E as -> -> ->.
  apply cell_rating_some_inv in Ec. destruct Ec as [Hcand Hparse].
  exists x, row, col, v. repeat split; (assumption || lia).
Qed.

Lemma X7_locator_sound_witness :
  (Some rating_12_3, Some 3%nat, Some 2%nat) = (None, None, None)
  \/ exists x row col v,
       (Some rating_12_3, Some 3%nat, Some 2%nat) = (Some x, Some row, Some col)
       /\ In v news_a_names
       /\ (1 <= col <= 4)%nat /\ (col < ncols annotated_sheet)%nat
       /\ (row < nrows annotated_sheet)%nat
       /\ is_candidate (strip (text_at annotated_sheet row col)) v = true
       /\ parsed_rating (strip (text_at annotated_sheet row col)) v = Ok x.
Proof.
  apply (X7_locator_sound annotated_sheet news_a_names).
  vm_compute. reflexivity.
Defined.

(** X8. The locator reads nothing outside the columns 1 to 4: two frames
    of the same shape that agree on these columns give the same result,
    whatever column 0 and the columns from 5 on hold. *)
Theorem X8_locator_reads_columns_1_to_4 (sheet1 sheet2 : DataFrame cell)
    (names : list pystr) :
  nrows sheet1 = nrows sheet2 -> ncols sheet1 = ncols sheet2 ->
  (forall row col, (1 <= col <= 4)%nat ->
                   cell_at sheet1 row col = cell_at sheet2 row col) ->
  find_program_data_improved sheet1 names
  = find_program_data_improved sheet2 names.
Proof.
  intros Hr Hc Hcells. unfold find_program_data_improved.
  cbn [nrows fillna_astype_str]. rewrite Hr. f_equal.
  apply for_each_ext_in. intros v _.
  apply for_each_ext_in. intros col Hcol. apply in_range_iff in Hcol.
  apply for_each_ext_in. intros row _.
  unfold inspect_cell, iloc. cbn [nrows ncols cell_at fillna_astype_str].
  now rewrite Hr, Hc, Hcells by lia.
Qed.

Lemma X8_locator_reads_columns_1_to_4_witness :
  find_program_data_improved annotated_sheet news_a_names
  = find_program_data_improved relabelled_sheet news_a_names.
Proof.
  apply (X8_locator_reads_columns_1_to_4 annotated_sheet relabelled_sheet).
  - reflexivity.
  - reflexivity.
  - intros row col H. destruct col as [|col]; [lia|]. reflexivity.
Defined.

Lemma locator_raise_inv (sheet : DataFrame cell) (names : list pystr)
    (e : exn) :
  find_program_data_improved sheet names = Raise e ->
  e = IndexError /\ names <> []
  /\ (0 < nrows sheet)%nat /\ (ncols sheet < 5)%nat.
Proof.
  intros H.
  assert (Hshape : (0 < nrows sheet)%nat /\ (ncols sheet < 5)%nat).
  { destruct (Nat.eq_dec (nrows sheet) 0) as [E0|].
    { rewrite locate_refines in H by (right; exact E0). discriminate H. }
    destruct (le_lt_dec 5 (ncols sheet)) as [E5|].
    { rewrite locate_refines in H by (left; exact E5). discriminate H. }
    lia. }
  split; [|split; [intros ->; cbv in H; discriminate H|exact Hshape]].
  unfold find_program_data_improved in H. cbn [nrows fillna_astype_str] in H.
  destruct (for_each names _) as [[[[x row] col]|]|e'] eqn:E; cbn [bind] in H;
    try discriminate.
  injection H as <-.
  apply for_each_raise_inv in E. destruct E as (v & _ & E).
  apply for_each_raise_inv in E. destruct E as (col & _ & E).
  apply for_each_raise_inv in E. destruct E as (row & _ & E).
  now apply inspect_cell_raise_inv in E.
Qed.

(** X9. The locator raises nothing but [IndexError], and only on a frame
    that has rows and fewer than five columns, with at least one name to
    look for. *)
Theorem X9_locator_raises_only_off_frame (sheet : DataFrame cell)
    (names : list pystr) (e : exn) :
  find_program_data_improved sheet names = Raise e ->
  e = IndexError /\ names <> []
  /\ (0 < nrows sheet)%nat /\ (ncols sheet < 5)%nat.
Proof. apply locator_raise_inv. Qed.

Lemma X9_locator_raises_only_off_frame_witness :
  IndexError = IndexError /\ news_a_names <> []
  /\ (0 < nrows three_column_sheet)%nat /\ (ncols three_column_sheet < 5)%nat.
Proof.
  apply (X9_locator_raises_only_off_frame three_column_sheet news_a_names).
  vm_compute. reflexivity.
Defined.

(** X10. On a frame with rows and fewer than five columns the locator
    raises [IndexError] as soon as the first name yields no rating in the
    columns that exist: it never reaches a later name, nor three nulls. *)
Theorem X10_narrow_frame_raises (sheet : DataFrame cell) (v : pystr)
    (names : list pystr) :
  (0 < nrows sheet)%nat -> (ncols sheet < 5)%nat ->
  (forall row col, (1 <= col < ncols sheet)%nat -> (row < nrows sheet)%nat ->
                   cell_rating (text_at sheet row col) v = None) ->
  find_program_data_improved sheet (v :: names) = Raise IndexError.
Proof.
  intros Hr Hc Hnone. unfold find_program_data_improved.
  cbn [nrows fillna_astype_str for_each].
  set (k := Nat.max 1 (ncols sheet)).
  rewrite (range_split 1 k 5) by (unfold k; lia).
  rewrite for_each_app, for_each_all_none.
  - rewrite (range_cons k 5) by (unfold k; lia). cbn [for_each].
    rewrite (range_cons 0 (nrows sheet)) by lia. cbn [for_each].
    rewrite inspect_cell_out_of_bounds by (unfold k; lia). reflexivity.
  - intros col Hcol. apply in_range_iff in Hcol.
    apply for_each_all_none. intros row Hrow. apply in_range_iff in Hrow.
    rewrite inspect_cell_in_bounds by (unfold k in Hcol; lia).
    unfold rating_at. now rewrite Hnone by (unfold k in Hcol; lia).
Qed.

Lemma X10_narrow_frame_raises_witness :
  find_program_data_improved three_column_sheet
    (u "뉴스A" :: [u "특집뉴스A"]) = Raise IndexError.
Proof.
  apply (X10_narrow_frame_raises three_column_sheet).
  - simpl. lia.
  - simpl. lia.
  - intros row col Hc Hr. simpl in Hc, Hr.
    destruct row as [|row]; [|lia].
    destruct col as [|[|[|col]]]; try lia; vm_compute; reflexivity.
Defined.

(** ** What the aggregator raises and depends on *)

Lemma int_of_str_raises (s : pystr) (e : exn) :
  int_of_str s = Raise e -> e = ValueError.
Proof. unfold int_of_str. break_match; congruence. Qed.

Lemma strptime_raises (s : pystr) (e : exn) :
  strptime_yymmdd s = Raise e -> e = ValueError.
Proof.
  unfold strptime_yymmdd, make_date, bind.
  destruct (re_yymmdd s) as [|[[[y m] d] rest] ?]; [congruence|].
  destruct rest; [|congruence].
  destruct (int_of_str y) eqn:Ey; [|intros [= <-]; eapply int_of_str_raises; eauto].
  destruct (int_of_str m) eqn:Em; [|intros [= <-]; eapply int_of_str_raises; eauto].
  destruct (int_of_str d) eqn:Ed; [|intros [= <-]; eapply int_of_str_raises; eauto].
  break_match; congruence.
Qed.

Lemma collect_ratings_raise_inv (sheet_paid sheet_2049 : DataFrame cell)
    (items : dict (list pystr)) :
  Forall (fun item => snd item <> []) items ->
  forall ratings e,
  collect_ratings sheet_paid sheet_2049 items ratings = Raise e ->
  e = IndexError
  /\ (((0 < nrows sheet_paid)%nat /\ (ncols sheet_paid < 5)%nat)
      \/ ((0 < nrows sheet_2049)%nat /\ (ncols sheet_2049 < 5)%nat)).
Proof.
  induction 1 as [|[key names] items Hne _ IH]; intros ratings e;
    cbn [collect_ratings]; [discriminate|].
  destruct (find_program_data_improved sheet_paid names)
    as [[[a ?] ?]|e1] eqn:E1; cbn [bind].
  - destruct (find_program_data_improved sheet_2049 names)
      as [[[b ?] ?]|e2] eqn:E2; cbn [bind].
    + destruct names as [|n0 names]; [now destruct Hne|].
      cbn [getitem nth_error bind]. apply IH.
    + intros [= <-]. apply locator_raise_inv in E2. tauto.
  - intros [= <-]. apply locator_raise_inv in E1. tauto.
Qed.

Lemma programs_names_nonempty (weekend : bool) :
  Forall (fun item => snd item <> []) (programs weekend).
Proof. destruct weekend; repeat constructor; discriminate. Qed.

(** X11. The aggregator raises [ValueError] exactly when the date text is
    not a date, whatever the frames hold, since the date is parsed before
    any frame is read; and whenever it raises, it is either that
    [ValueError], or an [IndexError] on a date that was parsed, which
    takes a frame with rows and fewer than five columns. *)
Theorem X11_aggregator_errors (sheet_paid sheet_2049 : DataFrame cell)
    (date_str : pystr) :
  (get_program_ratings sheet_paid sheet_2049 date_str = Raise ValueError
   <-> strptime_yymmdd date_str = Raise ValueError)
  /\ forall e,
       get_program_ratings sheet_paid sheet_2049 date_str = Raise e ->
       (e = ValueError /\ strptime_yymmdd date_str = Raise ValueError)
       \/ (e = IndexError
           /\ (exists dt, strptime_yymmdd date_str = Ok dt)
           /\ (((0 < nrows sheet_paid)%nat /\ (ncols sheet_paid < 5)%nat)
               \/ ((0 < nrows sheet_2049)%nat
                   /\ (ncols sheet_2049 < 5)%nat))).
Proof.
  assert (Hall : forall e,
       get_program_ratings sheet_paid sheet_2049 date_str = Raise e ->
       (e = ValueError /\ strptime_yymmdd date_str = Raise ValueError)
       \/ (e = IndexError
           /\ (exists dt, strptime_yymmdd date_str = Ok dt)
           /\ (((0 < nrows sheet_paid)%nat /\ (ncols sheet_paid < 5)%nat)
               \/ ((0 < nrows sheet_2049)%nat
                   /\ (ncols sheet_2049 < 5)%nat)))).
  { intros e. unfold get_program_ratings.
    destruct (strptime_yymmdd date_str) as [dt|e'] eqn:E; cbn [bind]; intros H.
    - right. apply collect_ratings_raise_inv in H;
        [|apply programs_names_nonempty].
      destruct H as [-> Hnarrow]. split; [reflexivity|].
      split; [eauto|assumption].
    - left. injection H as <-. pose proof (strptime_raises _ _ E) as ->. auto. }
  split; [|exact Hall]. split.
  - intros H. destruct (Hall _ H) as [[_ E]|[E _]]; [exact E|discriminate E].
  - intros E. unfold get_program_ratings. now rewrite E.
Qed.

Lemma X11_aggregator_errors_witness :
  get_program_ratings one_column_sheet mbn_sheet (u "240230")
  = Raise ValueError.
Proof.
  apply (proj1 (X11_aggregator_errors one_column_sheet mbn_sheet (u "240230"))).
  vm_compute. reflexivity.
Defined.

(** X12. The date enters the aggregate only through the day type: two
    well-formed dates that are both weekend days, or both weekdays, give
    the same result on the same frames, whatever the frames. *)
Theorem X12_date_only_through_day_type (sheet_paid sheet_2049 : DataFrame cell)
    (y1 m1 d1 y2 m2 d2 : Z) :
  valid_yymmdd y1 m1 d1 -> valid_yymmdd y2 m2 d2 ->
  saturday_or_sunday (full_year y1) m1 d1
  = saturday_or_sunday (full_year y2) m2 d2 ->
  get_program_ratings sheet_paid sheet_2049 (yymmdd y1 m1 d1)
  = get_program_ratings sheet_paid sheet_2049 (yymmdd y2 m2 d2).
Proof.
  intros H1 H2 Hsame. unfold get_program_ratings.
  destruct (strptime_valid _ _ _ H1) as [-> E1].
  destruct (strptime_valid _ _ _ H2) as [-> E2].
  cbn [bind]. now rewrite E1, E2, Hsame.
Qed.

Lemma valid_240101 : valid_yymmdd 24 1 1.
Proof. unfold valid_yymmdd. repeat split; try lia. vm_compute. discriminate. Qed.

Lemma valid_991231 : valid_yymmdd 99 12 31.
Proof. unfold valid_yymmdd. repeat split; try lia. vm_compute. discriminate. Qed.

Lemma X12_date_only_through_day_type_witness :
  get_program_ratings one_column_sheet mbn_sheet (yymmdd 24 1 1)
  = get_program_ratings one_column_sheet mbn_sheet (yymmdd 99 12 31).
Proof.
  apply (X12_date_only_through_day_type one_column_sheet mbn_sheet
           24 1 1 99 12 31).
  - exact valid_240101.
  - exact valid_991231.
  - vm_compute. reflexivity.
Defined.

(** X13. The two frames are searched independently: on frames the scan
    fits, the paid ratings do not change when the 2049 frame is replaced,
    and the 2049 ratings do not change when the paid frame is replaced; the
    names change with neither. *)
Theorem X13_frames_independent
    (sheet_a sheet_a' sheet_b sheet_b' : DataFrame cell)
    (y m d : Z) (key : pystr) :
  scan_fits sheet_a -> scan_fits sheet_a' ->
  scan_fits sheet_b -> scan_fits sheet_b' ->
  valid_yymmdd y m d ->
  exists r1 r2 r3,
    get_program_ratings sheet_a sheet_b (yymmdd y m d) = Ok r1
    /\ get_program_ratings sheet_a sheet_b' (yymmdd y m d) = Ok r2
    /\ get_program_ratings sheet_a' sheet_b (yymmdd y m d) = Ok r3
    /\ option_map paid (dict_get r1 key) = option_map paid (dict_get r2 key)
    /\ option_map rating_2049 (dict_get r1 key)
       = option_map rating_2049 (dict_get r3 key)
    /\ option_map name (dict_get r1 key) = option_map name (dict_get r2 key)
    /\ option_map name (dict_get r1 key) = option_map name (dict_get r3 key).
Proof.
  intros Hp Hp' Hq Hq' Hd.
  do 3 eexists.
  rewrite !get_program_ratings_spec by assumption.
  split; [reflexivity|]. split; [reflexivity|]. split; [reflexivity|].
  unfold spec_ratings. cbn [map dict_get].
  repeat match goal with
         | |- context [str_eqb (key_text ?k) key] =>
             destruct (str_eqb (key_text k) key)
         end; repeat split; reflexivity.
Qed.

Lemma X13_frames_independent_witness :
  exists r1 r2 r3,
    get_program_ratings annotated_sheet mbn_sheet (yymmdd 24 1 1) = Ok r1
    /\ get_program_ratings annotated_sheet special_sheet (yymmdd 24 1 1) = Ok r2
    /\ get_program_ratings percent_sheet mbn_sheet (yymmdd 24 1 1) = Ok r3
    /\ option_map paid (dict_get r1 (u "news_a"))
       = option_map paid (dict_get r2 (u "news_a"))
    /\ option_map rating_2049 (dict_get r1 (u "news_a"))
       = option_map rating_2049 (dict_get r3 (u "news_a"))
    /\ option_map name (dict_get r1 (u "news_a"))
       = option_map name (dict_get r2 (u "news_a"))
    /\ option_map name (dict_get r1 (u "news_a"))
       = option_map name (dict_get r3 (u "news_a")).
Proof.
  apply (X13_frames_independent annotated_sheet percent_sheet mbn_sheet
           special_sheet 24 1 1 (u "news_a")).
  - left. simpl. lia.
  - left. simpl. lia.
  - left. simpl. lia.
  - left. simpl. lia.
  - exact valid_240101.
Defined.

(** ** The header row and the header columns *)

Lemma find_program_row_ok_inv (df : DataFrame cell) (row : nat) :
  find_program_row df = Ok row ->
  (row < nrows df)%nat /\ (0 < ncols df)%nat
  /\ is_header_cell (cell_at df row 0) = true
  /\ (forall r, (r < row)%nat -> is_header_cell (cell_at df r 0) = false).
Proof.
  intros H.
  assert (Hc : (0 < ncols df)%nat).
  { destruct (Nat.eq_dec (ncols df) 0) as [E0|]; [exfalso|lia].
    unfold find_program_row in H.
    destruct (Nat.eq_dec (nrows df) 0) as [R0|].
    - rewrite R0 in H. discriminate H.
    - rewrite (range_cons 0 (nrows df)) in H by lia. cbn [for_each] in H.
      rewrite iloc_out_of_bounds in H by lia. discriminate H. }
  pose proof (header_scan df (nrows df) Hc (Nat.le_refl _)) as S.
  cbv zeta in S. unfold find_program_row in H.
  destruct S as [[E _]|(row' & Hrow & Hhead & Hbefore & E)]; rewrite E in H;
    cbn [bind] in H; [discriminate|].
  injection H as <-. auto.
Qed.

(** X14. When the header-row lookup succeeds, the row it returns is in
    the frame, holds the header in column 0 and is the topmost such row;
    the list of header columns is then made without an error, and it is
    column 0 followed by the other header columns of that row in
    increasing order, so the scan always has column 0 to look at. *)
Theorem X14_header_columns (df : DataFrame cell) (program_row : nat) :
  find_program_row df = Ok program_row ->
  (program_row < nrows df)%nat
  /\ is_header_cell (cell_at df program_row 0) = true
  /\ (forall r, (r < program_row)%nat ->
                is_header_cell (cell_at df r 0) = false)
  /\ collect_program_cols df program_row (range 0 (ncols df))
     = Ok (O :: filter (fun col => is_header_cell (cell_at df program_row col))
                  (range 1 (ncols df))).
Proof.
  intros H. apply find_program_row_ok_inv in H.
  destruct H as (Hr & Hc & Hhead & Htop).
  repeat split; try assumption.
  rewrite collect_program_cols_spec
    by (try assumption; intros col Hin; apply in_range_iff in Hin; lia).
  rewrite (range_cons 0 (ncols df)) by lia. cbn [filter]. now rewrite Hhead.
Qed.

Lemma X14_header_columns_witness :
  (0 < nrows structured_sheet)%nat
  /\ is_header_cell (cell_at structured_sheet 0 0) = true
  /\ (forall r, (r < 0)%nat ->
                is_header_cell (cell_at structured_sheet r 0) = false)
  /\ collect_program_cols structured_sheet 0 (range 0 (ncols structured_sheet))
     = Ok (O :: filter (fun col => is_header_cell (cell_at structured_sheet 0 col))
                  (range 1 (ncols structured_sheet))).
Proof.
  apply (X14_header_columns structured_sheet 0). vm_compute. reflexivity.
Defined.

(** ** Names in order, dead handler arm, ignored fields *)

(** X15. Later names are consulted only when the earlier ones found
    nothing: the locator on a list of names followed by more names returns
    what it returns on the first list when that holds a rating (or
    raises), and otherwise what it returns on the names that follow. *)
Theorem X15_names_in_order (sheet : DataFrame cell) (names more : list pystr) :
  find_program_data_improved sheet (names ++ more)
  = r <- find_program_data_improved sheet names ;;
    match rating_of r with
    | Some _ => Ok r
    | None => find_program_data_improved sheet more
    end.
Proof.
  unfold find_program_data_improved. rewrite for_each_app.
  destruct (for_each names _) as [[[[x row] col]|]|e]; reflexivity.
Qed.

(** X16. For a cell that holds the name, cutting out the rating text
    never fails with [IndexError]: the only way the extraction fails is a
    text that is not a float (or an empty name), a [ValueError]. *)
Theorem X16_extraction_fails_with_value_error (cell_value v : pystr) (e : exn) :
  contains v cell_value = true ->
  parsed_rating cell_value v = Raise e ->
  e = ValueError
  /\ (v <> [] -> exists rs, rating_str cell_value v = Ok rs
                            /\ float_of_str rs = Raise ValueError).
Proof.
  intros Hin H. destruct v as [|c v].
  - unfold parsed_rating, rating_str, split in H. cbn [bind] in H.
    injection H as <-. split; [reflexivity|].
    intros Hne. exfalso. apply Hne. reflexivity.
  - destruct (contains_text_after _ _ Hin) as [after Hafter].
    assert (Hne : c :: v <> []) by discriminate.
    unfold parsed_rating in H.
    rewrite (rating_str_spec _ _ _ Hne Hafter) in *.
    cbn [bind] in H. pose proof (float_of_str_raises _ _ H) as ->.
    split; [reflexivity|]. intros _. eauto.
Qed.

Lemma X16_extraction_fails_with_value_error_witness :
  ValueError = ValueError
  /\ (u "뉴스A" <> [] ->
      exists rs, rating_str (u "뉴스A 12.3% (최종)") (u "뉴스A") = Ok rs
                 /\ float_of_str rs = Raise ValueError).
Proof.
  apply (X16_extraction_fails_with_value_error
           (u "뉴스A 12.3% (최종)") (u "뉴스A") ValueError);
    vm_compute; reflexivity.
Defined.

Lemma find_char_app_some (c : char) (a t : pystr) (i : nat) :
  find [c] a = Some i -> find [c] (a ++ t) = Some i.
Proof.
  revert i. induction a as [|x a IH]; intros i H.
  - rewrite find_eq in H. discriminate H.
  - rewrite find_eq in H. rewrite find_eq.
    cbn [app startswith] in *. rewrite andb_true_r in *.
    destruct (c =? x); [assumption|].
    destruct (find [c] a) as [j|]; [|discriminate].
    now rewrite (IH j eq_refl).
Qed.

(** Splitting a text that ends in a separator and more text: the pieces
    of the front, then the pieces of the rest. *)
Lemma split_pieces_app_char (c : char) (t : pystr) (n : nat) :
  forall a, (length a <= n)%nat ->
  split_pieces (length (a ++ c :: t)) [c] (a ++ c :: t)
  = split_pieces (length a) [c] a ++ split_pieces (length t) [c] t.
Proof.
  induction n as [|n IH]; intros a Ha.
  - destruct a; [|simpl in Ha; lia].
    rewrite (split_pieces_char c [] t) by constructor. reflexivity.
  - rewrite (split_pieces_unfold [c] (a ++ c :: t)) by discriminate.
    rewrite (split_pieces_unfold [c] a) by discriminate.
    destruct (find [c] a) as [i|] eqn:E.
    + rewrite (find_char_app_some c a (c :: t) i E). cbv zeta.
      pose proof (find_bound _ _ _ E) as Hb.
      change (length [c]) with 1%nat in *.
      rewrite firstn_app, skipn_app.
      replace (i - length a)%nat with O by lia.
      replace (i + 1 - length a)%nat with O by lia.
      cbn [firstn skipn]. rewrite app_nil_r. cbn [app]. f_equal.
      apply IH. rewrite length_skipn. lia.
    + pose proof (find_char_none_inv c a E) as Hno.
      rewrite (find_char_app c a t Hno). cbv zeta.
      change (length [c]) with 1%nat.
      rewrite firstn_app, Nat.sub_diag, firstn_all. cbn [firstn].
      rewrite app_nil_r.
      rewrite skipn_app, skipn_all2 by lia.
      replace (length a + 1 - length a)%nat with 1%nat by lia. reflexivity.
Qed.

(** X17. What follows the third field is ignored: adding a colon and any
    text to a text that already has three fields changes neither the
    seconds read by [time_to_seconds] nor the text made by
    [convert_to_time_str]. *)
Theorem X17_extra_fields_ignored (s extra : pystr) (p0 p1 p2 : pystr)
    (rest : list pystr) :
  split s (u ":") = Ok (p0 :: p1 :: p2 :: rest) ->
  time_to_seconds (s ++ u ":" ++ extra) = time_to_seconds s
  /\ convert_to_time_str (Str (s ++ u ":" ++ extra))
     = convert_to_time_str (Str s).
Proof.
  intros H0.
  assert (H : split_pieces (length s) [58] s = p0 :: p1 :: p2 :: rest).
  { pose proof H0 as H. unfold split in H. change (u ":") with [58] in H.
    injection H as H. exact H. }
  assert (E : split (s ++ u ":" ++ extra) (u ":")
              = Ok (p0 :: p1 :: p2 :: rest
                    ++ split_pieces (length extra) [58] extra)).
  { pose proof (split_pieces_app_char 58 extra (length s) s (Nat.le_refl _))
      as A.
    apply (f_equal (fun l => l ++ split_pieces (length extra) [58] extra)) in H.
    unfold split. change (u ":") with [58]. cbv iota. f_equal.
    etransitivity; [exact A|exact H]. }
  unfold time_to_seconds, time_to_seconds_body, convert_to_time_str.
  rewrite E, H0. split; reflexivity.
Qed.

Lemma X17_extra_fields_ignored_witness :
  time_to_seconds (u "1:2:3" ++ u ":" ++ u "zz:9") = time_to_seconds (u "1:2:3")
  /\ convert_to_time_str (Str (u "1:2:3" ++ u ":" ++ u "zz:9"))
     = convert_to_time_str (Str (u "1:2:3")).
Proof.
  apply (X17_extra_fields_ignored (u "1:2:3") (u "zz:9")
           (u "1") (u "2") (u "3") []).
  vm_compute. reflexivity.
Defined.
